(** * Two plotting scripts: グラフ1.py and グラフ2.py

    Each script is a straight-line program: configure fonts, load a
    spreadsheet, drop invalid rows with a boolean mask, draw the measured
    points, a theory curve and a least-squares fit, save the figure and try
    to open it.

    The development has two layers.

    - The loaded columns are numpy [float64] values, modelled by the
      primitive binary64 floats of the standard library, so that NaN, the
      infinities and the comparisons behave as in the scripts.
    - The closed-form theory functions [calc_theory] are read over the real
      numbers: float arithmetic is idealised as exact arithmetic, which is
      the level at which limits and monotonicity make sense.  For
      pipeline 2, whose formula uses only IEEE operations, the function is
      given a second time on binary64 floats, as numpy evaluates it; the
      two differ by rounding and overflow.

    The control flow of the scripts (what is drawn, printed and saved, and
    which exception leaves the script) is a writer/error monad over a trace
    of library calls.  Library calls whose result depends on the outside
    world (pandas, numpy's fitting and logarithm, subprocess, the font
    manager, and the unguarded matplotlib calls that end a run) are fields
    of a [world] record. *)

From Stdlib Require Import Floats List Bool ZArith Reals Lra Lia String Ascii.
Import ListNotations.

(** ** float64 values *)

Module Float64.

Definition isnan (v : float) : bool := PrimFloat.is_nan v.

(** [v > 0] as numpy evaluates it: false on NaN. *)
Definition gt0 (v : float) : bool := PrimFloat.ltb 0%float v.

(** [np.isfinite]: neither NaN nor an infinity. *)
Definition isfinite (v : float) : bool := is_finite v.

End Float64.

(** ** pandas Series of float64 and the element-wise operators of the mask *)

Module Series.

Definition series := list float.
Definition bseries := list bool.

(** [np.isnan(s)] *)
Definition np_isnan (s : series) : bseries := map Float64.isnan s.

(** [s > 0] *)
Definition gt_zero (s : series) : bseries := map Float64.gt0 s.

(** [~m] *)
Definition invert (m : bseries) : bseries := map negb m.

(** [a & b], element by element. *)
Fixpoint band (a b : bseries) : bseries :=
  match a, b with
  | p :: a', q :: b' => (p && q) :: band a' b'
  | _, _ => []
  end.

(** [s[mask]]: boolean indexing keeps the positions where the mask holds.
    pandas refuses a mask that does not line up with the series; every
    mask of the scripts is built from columns of the same frame. *)
Fixpoint getitem_mask (s : series) (mask : bseries) : series :=
  match s, mask with
  | v :: s', b :: m' =>
      if b then v :: getitem_mask s' m' else getitem_mask s' m'
  | _, _ => []
  end.

Definition no_nan (s : series) : Prop :=
  Forall (fun v => Float64.isnan v = false) s.

Definition all_positive (s : series) : Prop :=
  Forall (fun v => Float64.gt0 v = true) s.

Definition all_finite (s : series) : Prop :=
  Forall (fun v => Float64.isfinite v = true) s.

End Series.

(** ** Python exceptions, results and the script monad *)

Module Py.

Inductive exn_class :=
| KeyError | ValueError | TypeError | LinAlgError
| FileNotFoundError | OSError | KeyboardInterrupt.

Record exn := mk_exn { cls : exn_class; msg : string }.

(** [isinstance(e, Exception)]: what [except Exception] catches.
    [KeyboardInterrupt] derives from [BaseException] only. *)
Definition is_Exception (e : exn) : bool :=
  match cls e with
  | KeyboardInterrupt => false
  | _ => true
  end.

(** A bare [except:] catches everything. *)
Definition bare_except (e : exn) : bool := true.

Inductive result (A : Type) :=
| Ok (a : A)
| Raise (e : exn).
Arguments Ok {A} a.
Arguments Raise {A} e.

(** Keys of [PLOT_STYLES]. *)
Inductive series_key := data1 | data2.
Inductive style_key := theory | fit.

(** The library calls a run makes, in the order they happen.
    [RcFontFamily] is the assignment to [rcParams['font.family']] (the two
    font-size assignments that follow it cannot fail and are left out);
    [Scatter] carries the plotted columns; [Plot] is [ax.plot] of a theory
    or fit curve, named by its [PLOT_STYLES] keys; [Log10] records a call
    of [np.log10] with its argument; [Axes] stands for the axis block from
    [set_xscale] to [tight_layout]; [Subprocess] is a call of
    [subprocess.run]. *)
Inductive event :=
| Print (s : string)
| RcFontFamily (family : string)
| Subplots
| Scatter (k : series_key) (x y : list float)
| Plot (k : series_key) (s : style_key)
| Log10 (arg : list float)
| Axes (xlog ylog grid : bool)
| Savefig (path : string)
| Subprocess (cmd : list string) (shell : bool).

Definition M (A : Type) : Type := (list event * result A)%type.

Definition ret {A} (a : A) : M A := ([], Ok a).

Definition bind {A B} (m : M A) (k : A -> M B) : M B :=
  match m with
  | (t, Ok a) => let '(t', r) := k a in (t ++ t', r)
  | (t, Raise e) => (t, Raise e)
  end.

Definition emit (e : event) : M unit := ([e], Ok tt).

Definition lift {A} (r : result A) : M A := ([], r).

(** [try: body except <catches>: handler] *)
Definition try_except {A} (body : M A) (catches : exn -> bool)
           (handler : exn -> M A) : M A :=
  match body with
  | (t, Ok a) => (t, Ok a)
  | (t, Raise e) =>
      if catches e
      then let '(t', r) := handler e in (t ++ t', r)
      else (t, Raise e)
  end.

Definition raised {A} (r : result A) : bool :=
  match r with
  | Raise _ => true
  | Ok _ => false
  end.

(** The events that draw on the figure or write it out. *)
Definition is_drawing (ev : event) : bool :=
  match ev with
  | Subplots | Scatter _ _ _ | Plot _ _ | Axes _ _ _ | Savefig _ => true
  | _ => false
  end.

(** [needle in hay] *)
Definition contains (needle hay : string) : Prop :=
  exists pre post, hay = (pre ++ needle ++ post)%string.

Definition trace {A} (m : M A) : list event := fst m.
Definition outcome {A} (m : M A) : result A := snd m.

(** The built-in [max] over a sequence. *)
Definition py_max (xs : list float) : result float :=
  match xs with
  | [] => Raise (mk_exn ValueError "max() arg is an empty sequence")
  | v :: rest =>
      Ok (fold_left
            (fun acc item => if PrimFloat.ltb acc item then item else acc)
            rest v)
  end.

(** [a, b = coeffs] *)
Definition unpack2 (coeffs : list float) : result (float * float) :=
  match coeffs with
  | [a; b] => Ok (a, b)
  | _ => Raise (mk_exn ValueError "not enough values to unpack")
  end.

(** [os.path.join(a, b)] on a POSIX host. *)
Definition path_join (a b : string) : string :=
  match b with
  | String "/" _ => b
  | _ =>
      match a with
      | EmptyString => b
      | _ =>
          if String.eqb (substring (String.length a - 1) 1 a) "/"
          then a ++ b
          else a ++ "/" ++ b
      end
  end%string.

End Py.

Declare Scope py_scope.
Delimit Scope py_scope with py.
Notation "x <- m ;; k" := (Py.bind m (fun x => k))
  (at level 61, m at next level, right associativity) : py_scope.
Notation "m ;; k" := (Py.bind m (fun _ => k))
  (at level 61, right associativity) : py_scope.

(** ** What both scripts share

    Lines 121-145 (font set-up and loading) and 186-218 (axes, saving and
    opening) of グラフ1.py are the same statements as lines 128-152 and
    194-226 of グラフ2.py; they are modelled once. *)

Module Script.
Import Py.
Local Open Scope py_scope.
Local Open Scope string_scope.

(** A loaded sheet: the header row and the data rows.  A cell that is
    missing from a row reads as NaN, as an empty spreadsheet cell does.
    Every cell is a number that pandas reads into a float64 column; a
    sheet with text or with an integer beyond 64 bits in a column is not a
    frame of this model. *)
Record DataFrame := mk_df {
  columns : list string;
  rows : list (list float)
}.

Fixpoint index_of (col : string) (cols : list string) : option nat :=
  match cols with
  | [] => None
  | c :: cols' =>
      if String.eqb c col then Some 0
      else option_map S (index_of col cols')
  end.

(** [df[col].copy()] *)
Definition getitem (df : DataFrame) (col : string) : result (list float) :=
  match index_of col (columns df) with
  | None => Raise (mk_exn KeyError col)
  | Some i => Ok (map (fun r => nth i r nan) (rows df))
  end.

(** Everything the scripts ask of their environment.  [axis_block] is
    the outcome of the axis statements from [set_xscale] to
    [tight_layout], [savefig] that of [plt.savefig]: [None] when the calls
    return, the exception otherwise. *)
Record world := mk_world {
  addfont : option exn;
  current_dir : string;
  current_file : string;
  read_excel : string -> result DataFrame;
  np_polyfit : list float -> list float -> nat -> result (list float);
  np_log10 : float -> float;
  subprocess_run : list string -> bool -> result Z;
  axis_block : option exn;
  savefig : string -> option exn
}.

(** The Japanese-font block. *)
Definition font_setup (w : world) : M unit :=
  try_except
    (lift (match addfont w with Some e => Raise e | None => Ok tt end) ;;
     emit (RcFontFamily "Hiragino Sans"))
    bare_except
    (fun _ =>
       emit (Print "日本語フォントの設定に失敗しました。デフォルトフォントを使用します。") ;;
       emit (RcFontFamily "sans-serif")).

(** [pd.read_excel(...)] and the three column reads. *)
Definition load (w : world) (DATA_FILE X_COL Y1_COL Y2_COL : string)
  : M (list float * list float * list float) :=
  df <- lift (read_excel w (path_join (current_dir w) DATA_FILE)) ;;
  x_data <- lift (getitem df X_COL) ;;
  y1_data <- lift (getitem df Y1_COL) ;;
  y2_data <- lift (getitem df Y2_COL) ;;
  ret (x_data, y1_data, y2_data).

Definition output_path (w : world) : string :=
  path_join (current_dir w) (current_file w ++ ".png").

(** [subprocess.run(cmd)]: the returned [CompletedProcess] is dropped;
    without [check=True] an exit status is not an exception. *)
Definition run (w : world) (cmd : list string) (shell : bool) : M unit :=
  emit (Subprocess cmd shell) ;;
  _ <- lift (subprocess_run w cmd shell) ;;
  ret tt.

(** The nested [try]/[except:] chain after [savefig]. *)
Definition open_file (w : world) (path : string) : M unit :=
  try_except (run w ["open"; path] false) bare_except (fun _ =>
    try_except (run w ["start"; path] true) bare_except (fun _ =>
      try_except (run w ["xdg-open"; path] false) bare_except (fun _ =>
        emit (Print ("グラフを保存しました: " ++ path)) ;;
        emit (Print "ファイルを手動で開いてください。")))).

(** A library call that returns nothing and may raise. *)
Definition call (r : option exn) : M unit :=
  lift (match r with Some e => Raise e | None => Ok tt end).

(** Axis set-up, [savefig] and the open step.  The axis statements and
    [savefig] are not inside any [try]: the event is recorded when the
    call has returned, and an exception of theirs ends the run. *)
Definition finish (w : world) (xlog ylog grid : bool) : M unit :=
  call (axis_block w) ;;
  emit (Axes xlog ylog grid) ;;
  call (savefig w (output_path w)) ;;
  emit (Savefig (output_path w)) ;;
  open_file w (output_path w).

(** The dtype pandas gives a column of a sheet: a sheet without data
    rows has [object] columns, a column of numbers is [float64]. *)
Inductive dtype := float64 | object.

Definition dtype_of (s : list float) : dtype :=
  match s with
  | [] => object
  | _ :: _ => float64
  end.

(** The [TypeError] of [np.isnan] on an [object] column. *)
Definition isnan_refused : exn :=
  mk_exn TypeError "ufunc 'isnan' not supported for the input types".

(** [np.isnan(s)]: the ufunc refuses an [object] column. *)
Definition np_isnan_checked (s : list float) : M (list bool) :=
  match dtype_of s with
  | object => lift (Raise isnan_refused)
  | float64 => ret (map Float64.isnan s)
  end.

End Script.

(** ** numpy broadcasting over real-valued arrays *)

Module NpR.
Local Open Scope R_scope.

Definition array := list R.

Definition neg (a : array) : array := map Ropp a.
Definition div_scalar (a : array) (c : R) : array := map (fun v => v / c) a.
Definition scalar_mul (c : R) (a : array) : array := map (fun v => c * v) a.
Definition scalar_add (c : R) (a : array) : array := map (fun v => c + v) a.
Definition scalar_div (c : R) (a : array) : array := map (fun v => c / v) a.
Definition power (a : array) (n : nat) : array := map (fun v => v ^ n) a.
Definition np_exp (a : array) : array := map exp a.
Definition np_sqrt (a : array) : array := map sqrt a.

(** [a / b] for two arrays. *)
Fixpoint divide (a b : array) : array :=
  match a, b with
  | u :: a', v :: b' => (u / v) :: divide a' b'
  | _, _ => []
  end.

End NpR.

(** ** グラフ1.py: temperature against time *)

Module Graph1.
Import Py Script Series.
Local Open Scope string_scope.

Definition DATA_FILE := "data1.xlsm".
Definition X_COL := "Time".
Definition Y1_COL := "Temp1".
Definition Y2_COL := "Temp2".

Definition PARAM_A : R := 50.
Definition PARAM_B : R := 25.
Definition PARAM_C : R := 15.
Definition PARAM_D : R := 25.

Definition AXIS_LOG_x := false.
Definition AXIS_LOG_y := false.
Definition SHOW_GRID := true.
Definition PLOT_THEORY := true.
Definition PLOT_FIT := true.

(** [calc_theory], lines 44-60. *)
Definition calc_theory (x_data : NpR.array) : NpR.array * NpR.array :=
  let y1 :=
    NpR.scalar_add PARAM_A
      (NpR.scalar_mul (PARAM_B - PARAM_A)
         (NpR.np_exp (NpR.div_scalar (NpR.neg x_data) PARAM_C))) in
  let y2 :=
    NpR.scalar_add PARAM_A
      (NpR.scalar_mul (PARAM_B - PARAM_A)
         (NpR.np_exp (NpR.div_scalar (NpR.neg x_data) PARAM_D))) in
  (y1, y2).

(** The two channels at a single time [t]: [calc_theory] on the
    one-element array. *)
Definition y1_at (t : R) : R := nth 0 (fst (calc_theory [t])) 0%R.
Definition y2_at (t : R) : R := nth 0 (snd (calc_theory [t])) 0%R.

(** Line 148. *)
Definition mask (x_data y1_data y2_data : series) : bseries :=
  band (band (invert (np_isnan x_data)) (invert (np_isnan y1_data)))
       (invert (np_isnan y2_data)).

(** Lines 148-151. *)
Definition clean (d : series * series * series)
  : series * series * series :=
  let '(x_data, y1_data, y2_data) := d in
  let m := mask x_data y1_data y2_data in
  (getitem_mask x_data m, getitem_mask y1_data m, getitem_mask y2_data m).

Local Open Scope py_scope.

(** Lines 160-167: the theory curve is [calc_theory] over 200 points of
    the range from 0 to [max(x_data)]; the trace records that the two
    curves are drawn, not their values. *)
Definition theory_block (x_data : series) : M unit :=
  if PLOT_THEORY then
    _ <- lift (py_max x_data) ;;
    emit (Plot data1 theory) ;;
    emit (Plot data2 theory)
  else ret tt.

(** Lines 169-184. *)
Definition fit_block (w : world) (x_data y1_data y2_data : series)
  : M unit :=
  if PLOT_FIT then
    try_except
      (_ <- lift (np_polyfit w x_data y1_data 2) ;;
       _ <- lift (py_max x_data) ;;
       emit (Plot data1 fit) ;;
       _ <- lift (np_polyfit w x_data y2_data 2) ;;
       emit (Plot data2 fit))
      is_Exception
      (fun e =>
         emit (Print ("近似曲線の計算でエラーが発生しました: " ++ msg e)) ;;
         emit (Print "近似曲線の表示をスキップします"))
  else ret tt.

(** One of the two fit computations of the [try] block raises [e]:
    the first, or the second after the first returned. *)
Definition fit_raises (w : world) (x_data y1_data y2_data : series)
           (e : exn) : Prop :=
  np_polyfit w x_data y1_data 2 = Raise e \/
  (raised (np_polyfit w x_data y1_data 2) = false /\
   np_polyfit w x_data y2_data 2 = Raise e).

(** Lines 153-218, on the cleaned columns. *)
Definition render (w : world) (x_data y1_data y2_data : series) : M unit :=
  emit Subplots ;;
  emit (Scatter data1 x_data y1_data) ;;
  emit (Scatter data2 x_data y2_data) ;;
  theory_block x_data ;;
  fit_block w x_data y1_data y2_data ;;
  finish w AXIS_LOG_x AXIS_LOG_y SHOW_GRID.

(** Lines 147-151 as the script runs them: the three [np.isnan] calls in
    their order, each of which can refuse its column, then the boolean
    indexing. *)
Definition filter (d : series * series * series)
  : M (series * series * series) :=
  let '(x_data, y1_data, y2_data) := d in
  nx <- np_isnan_checked x_data ;;
  ny1 <- np_isnan_checked y1_data ;;
  ny2 <- np_isnan_checked y2_data ;;
  let m := band (band (invert nx) (invert ny1)) (invert ny2) in
  ret (getitem_mask x_data m, getitem_mask y1_data m, getitem_mask y2_data m).

(** The script from line 121 on. *)
Definition main (w : world) : M unit :=
  font_setup w ;;
  d <- load w DATA_FILE X_COL Y1_COL Y2_COL ;;
  c <- filter d ;;
  let '(x_data, y1_data, y2_data) := c in
  render w x_data y1_data y2_data.

End Graph1.

(** ** グラフ2.py: voltage gain against frequency *)

Module Graph2.
Import Py Script Series.
Local Open Scope string_scope.

Definition DATA_FILE := "data2.xlsm".
Definition X_COL := "Hz".
Definition Y1_COL := "G_s".
Definition Y2_COL := "G_b".

Definition PARAM_A : R := 2 * PI.
Definition PARAM_B : R := / 10 ^ 6.
Definition PARAM_C : R := / 10 ^ 3.

Definition AXIS_LOG_x := true.
Definition AXIS_LOG_y := true.
Definition SHOW_GRID := false.
Definition PLOT_THEORY := true.
Definition PLOT_FIT := true.

(** [calc_theory], lines 47-67. *)
Definition calc_theory (x_data : NpR.array) : NpR.array * NpR.array :=
  let omega := NpR.scalar_mul PARAM_A x_data in
  let denominator :=
    NpR.np_sqrt (NpR.scalar_add 1 (NpR.scalar_mul PARAM_B (NpR.power omega 2))) in
  let y1 := NpR.scalar_div 1 denominator in
  let y2 := NpR.divide (NpR.scalar_mul PARAM_C omega) denominator in
  (y1, y2).

(** The two channels at a single frequency [f]: [calc_theory] on the
    one-element array. *)
Definition y1_at (f : R) : R := nth 0 (fst (calc_theory [f])) 0%R.
Definition y2_at (f : R) : R := nth 0 (snd (calc_theory [f])) 0%R.

(** The level the second channel saturates at. *)
Definition saturation : R := PARAM_C / sqrt PARAM_B.

(** Lines 155-156. *)
Definition mask (x_data y1_data y2_data : series) : bseries :=
  band (band (band (band (band (gt_zero x_data) (gt_zero y1_data))
                         (gt_zero y2_data))
                   (invert (np_isnan x_data)))
             (invert (np_isnan y1_data)))
       (invert (np_isnan y2_data)).

(** Lines 155-159. *)
Definition clean (d : series * series * series)
  : series * series * series :=
  let '(x_data, y1_data, y2_data) := d in
  let m := mask x_data y1_data y2_data in
  (getitem_mask x_data m, getitem_mask y1_data m, getitem_mask y2_data m).

Local Open Scope py_scope.

(** [np.log10(s)]; the call is recorded with its argument. *)
Definition log10 (w : world) (s : series) : M series :=
  emit (Log10 s) ;;
  ret (map (np_log10 w) s).

(** Lines 168-174: the theory curve is [calc_theory] over the measured
    frequencies; the trace records that the two curves are drawn, not
    their values. *)
Definition theory_block (x_data : series) : M unit :=
  if PLOT_THEORY then
    emit (Plot data1 theory) ;;
    emit (Plot data2 theory)
  else ret tt.

(** One power-law fit: lines 180-183, and again 186-189. *)
Definition fit_one (w : world) (k : series_key) (x_data y_data : series)
  : M unit :=
  lx <- log10 w x_data ;;
  ly <- log10 w y_data ;;
  c <- lift (np_polyfit w lx ly 1) ;;
  _ <- lift (unpack2 c) ;;
  _ <- log10 w x_data ;;
  emit (Plot k fit).

(** Lines 176-192. *)
Definition fit_block (w : world) (x_data y1_data y2_data : series)
  : M unit :=
  if PLOT_FIT then
    try_except
      (fit_one w data1 x_data y1_data ;;
       fit_one w data2 x_data y2_data)
      is_Exception
      (fun e =>
         emit (Print ("近似直線の計算でエラーが発生しました: " ++ msg e)) ;;
         emit (Print "近似直線の表示をスキップします"))
  else ret tt.

(** [np.polyfit(np.log10(x), np.log10(y), deg=1)] *)
Definition loglog_polyfit (w : world) (x_data y_data : series)
  : result (list float) :=
  np_polyfit w (map (np_log10 w) x_data) (map (np_log10 w) y_data) 1.

(** One of the two fit computations of the [try] block raises [e]:
    the first, or the second after the first returned a slope and an
    intercept. *)
Definition fit_raises (w : world) (x_data y1_data y2_data : series)
           (e : exn) : Prop :=
  loglog_polyfit w x_data y1_data = Raise e \/
  ((exists slope1 intercept1,
       loglog_polyfit w x_data y1_data = Ok [slope1; intercept1]) /\
   loglog_polyfit w x_data y2_data = Raise e).

(** Lines 161-226, on the cleaned columns. *)
Definition render (w : world) (x_data y1_data y2_data : series) : M unit :=
  emit Subplots ;;
  emit (Scatter data1 x_data y1_data) ;;
  emit (Scatter data2 x_data y2_data) ;;
  theory_block x_data ;;
  fit_block w x_data y1_data y2_data ;;
  finish w AXIS_LOG_x AXIS_LOG_y SHOW_GRID.

(** Lines 154-159 as the script runs them: the three comparisons, then
    the three [np.isnan] calls in their order, each of which can refuse
    its column, then the boolean indexing. *)
Definition filter (d : series * series * series)
  : M (series * series * series) :=
  let '(x_data, y1_data, y2_data) := d in
  let positive :=
    band (band (gt_zero x_data) (gt_zero y1_data)) (gt_zero y2_data) in
  nx <- np_isnan_checked x_data ;;
  ny1 <- np_isnan_checked y1_data ;;
  ny2 <- np_isnan_checked y2_data ;;
  let m := band (band (band positive (invert nx)) (invert ny1))
                (invert ny2) in
  ret (getitem_mask x_data m, getitem_mask y1_data m, getitem_mask y2_data m).

(** The script from line 128 on. *)
Definition main (w : world) : M unit :=
  font_setup w ;;
  d <- load w DATA_FILE X_COL Y1_COL Y2_COL ;;
  c <- filter d ;;
  let '(x_data, y1_data, y2_data) := c in
  render w x_data y1_data y2_data.






End Graph2.

(** ** The masks, one row at a time

    [fx], [fy1] and [fy2] read the three cells of a row. *)

Module RowView.
Section Row.
Context {row : Type}.
Variables (fx fy1 fy2 : row -> float).

(** Line 148 of グラフ1.py at one row. *)
Definition row_valid1 (r : row) : bool :=
  negb (Float64.isnan (fx r)) && negb (Float64.isnan (fy1 r))
  && negb (Float64.isnan (fy2 r)).

(** Lines 155-156 of グラフ2.py at one row. *)
Definition row_valid2 (r : row) : bool :=
  Float64.gt0 (fx r) && Float64.gt0 (fy1 r) && Float64.gt0 (fy2 r)
  && negb (Float64.isnan (fx r)) && negb (Float64.isnan (fy1 r))
  && negb (Float64.isnan (fy2 r)).
End Row.
End RowView.

(** ** Sample sheets and environments *)

Module Example.
Import Py Script.
Local Open Scope string_scope.

(** Three measurements for グラフ1.py; the second row has an empty
    cell. *)
Definition sheet1 : DataFrame :=
  mk_df ["Time"; "Temp1"; "Temp2"]
        [[0; 25; 25]; [1; nan; 26]; [2; 28; 29]]%float.

(** Three measurements for グラフ2.py; the second row has a negative
    gain. *)
Definition sheet2 : DataFrame :=
  mk_df ["Hz"; "G_s"; "G_b"]
        [[10; 1; 0.5]; [100; -1; 0.5]; [1000; 0.5; 1]]%float.

(** A sheet of グラフ1.py whose only row has an empty cell. *)
Definition sheet_blank : DataFrame :=
  mk_df ["Time"; "Temp1"; "Temp2"] [[0; nan; 25]]%float.

(** A sheet without the [Temp2] column. *)
Definition sheet_short : DataFrame :=
  mk_df ["Time"; "Temp1"] [[0; 25]; [1; 26]]%float.

Definition fit_fails (x y : list float) (deg : nat)
  : result (list float) :=
  Raise (mk_exn LinAlgError "SVD did not converge in Linear Least Squares").

Definition fit_returns (x y : list float) (deg : nat)
  : result (list float) :=
  Ok (repeat 0%float (S deg)).

(** No opener command exists on the host. *)
Definition no_opener (cmd : list string) (shell : bool) : result Z :=
  Raise (mk_exn FileNotFoundError "No such file or directory").

Definition opener_returns (cmd : list string) (shell : bool) : result Z :=
  Ok 0%Z.

(** An environment around a sheet; its logarithm is a placeholder, and
    the axis statements and [savefig] return. *)
Definition around (df : DataFrame)
           (fit : list float -> list float -> nat -> result (list float))
           (opener : list string -> bool -> result Z) : world :=
  mk_world None "/home/user" "graph" (fun _ => Ok df) fit
           (fun v => v) opener None (fun _ => None).

(** A sheet of グラフ2.py in which no row passes the mask. *)
Definition sheet_masked : DataFrame :=
  mk_df ["Hz"; "G_s"; "G_b"] [[10; -1; 0.5]; [100; 0; 0.5]]%float.

(** [np.polyfit] as it treats an empty vector. *)
Definition fit_needs_data (x y : list float) (deg : nat)
  : result (list float) :=
  match x with
  | [] => Raise (mk_exn TypeError "expected non-empty vector for x")
  | _ :: _ => Ok (repeat 0%float (S deg))
  end.

(** The environment of a run on [sheet_masked]: the fit refuses the
    empty columns, and [tight_layout] raises on the logarithmic axes
    without data. *)
Definition masked_run : world :=
  mk_world None "/home/user" "graph" (fun _ => Ok sheet_masked)
           fit_needs_data (fun v => v) opener_returns
           (Some (mk_exn ValueError "tight_layout")) (fun _ => None).

(** The openers of a Linux host without an [open] command: [open] and
    every other missing program raise, while a command line handed to the
    shell returns the shell's exit status, 127 for the missing [start]. *)
Definition linux_opener (cmd : list string) (shell : bool) : result Z :=
  if shell then Ok 127%Z
  else match cmd with
       | "xdg-open" :: _ => Ok 0%Z
       | _ => Raise (mk_exn FileNotFoundError "No such file or directory")
       end.

End Example.

(** ** The formulas as the documentation writes them *)

Module Doc.
Local Open Scope R_scope.

(** [T(t) = Tmax + (T0 - Tmax) exp(-t/tau)] *)
Definition T (Tmax T0 tau t : R) : R := Tmax + (T0 - Tmax) * exp (- (t / tau)).

(** [G1(f) = 1/sqrt(1 + (w RC)^2)] with [w = 2 pi f]. *)
Definition G1 (RC f : R) : R :=
  let omega := 2 * PI * f in
  1 / sqrt (1 + (omega * RC) ^ 2).

(** [G2(f) = K w RC / sqrt(1 + (w RC)^2)] with [w = 2 pi f]. *)
Definition G2 (K RC f : R) : R :=
  let omega := 2 * PI * f in
  K * omega * RC / sqrt (1 + (omega * RC) ^ 2).

End Doc.

(** ** Frames without some rows, environments, and tests on traces *)

Module Frame.
Import Py Script.

(** The cell of row [r] under the header [col]. *)
Definition cell (df : DataFrame) (col : string) (r : list float) : float :=
  match index_of col (columns df) with
  | Some i => nth i r nan
  | None => nan
  end.

(** The frame that keeps the rows satisfying [keep], in their order. *)
Definition drop_rows (keep : list float -> bool) (df : DataFrame)
  : DataFrame :=
  mk_df (columns df) (filter keep (rows df)).

(** The row tests of the two masks, on the rows of a frame. *)
Definition valid1 (df : DataFrame) : list float -> bool :=
  RowView.row_valid1 (cell df Graph1.X_COL) (cell df Graph1.Y1_COL)
                     (cell df Graph1.Y2_COL).

Definition valid2 (df : DataFrame) : list float -> bool :=
  RowView.row_valid2 (cell df Graph2.X_COL) (cell df Graph2.Y1_COL)
                     (cell df Graph2.Y2_COL).

End Frame.

Module Env.
Import Py Script.

(** The same environment with another outcome of [addfont]. *)
Definition with_addfont (w : world) (a : option exn) : world :=
  mk_world a (current_dir w) (current_file w) (read_excel w)
           (np_polyfit w) (np_log10 w) (subprocess_run w)
           (axis_block w) (savefig w).

(** Every exception that [np.polyfit] raises in this environment is an
    instance of [Exception]. *)
Definition polyfit_raises_Exception (w : world) : Prop :=
  forall x y deg e, np_polyfit w x y deg = Raise e -> is_Exception e = true.

End Env.

Module Trace.
Import Py.

(** [savefig] and opener events. *)
Definition is_savefig (ev : event) : bool :=
  match ev with
  | Savefig _ => true
  | _ => false
  end.

Definition is_opener (ev : event) : bool :=
  match ev with
  | Subprocess _ _ => true
  | _ => false
  end.

(** An opener event runs a two-word command on the file [path]. *)
Definition opens (path : string) (ev : event) : Prop :=
  match ev with
  | Subprocess [_; q] _ => q = path
  | Subprocess _ _ => False
  | _ => True
  end.

(** What may happen before [savefig]: no saving and no opener. *)
Definition before_save (ev : event) : Prop :=
  is_savefig ev = false /\ is_opener ev = false.

(** What may happen after [savefig]: no drawing, no second saving, and
    openers only on the file [path]. *)
Definition after_save (path : string) (ev : event) : Prop :=
  is_drawing ev = false /\ opens path ev.

(** A computation that either stops, with an exception, before anything
    is saved or opened, or saves once under [path], goes through the
    events [opening] and ends normally. *)
Definition ends_at_save (path : string) (opening : list event)
           (m : M unit) : Prop :=
  exists A,
    Forall before_save A /\
    ((trace m = A /\ exists e, outcome m = Raise e) \/
     (trace m = (A ++ Savefig path :: opening)%list /\ outcome m = Ok tt)).

(** The computation raises exceptions of the kind [P] only. *)
Definition raises_only {A} (P : exn -> Prop) (m : M A) : Prop :=
  forall e, outcome m = Raise e -> P e.

End Trace.

(** * Theory evaluators *)

Section TheoryPipeline1.
Import Graph1.
Local Open Scope R_scope.

Lemma graph1_calc_theory_map (x_data : list R) :
  calc_theory x_data =
    (map y1_at x_data, map y2_at x_data).
Proof.
  unfold calc_theory, NpR.scalar_add, NpR.scalar_mul, NpR.np_exp,
    NpR.div_scalar, NpR.neg.
  rewrite !map_map. reflexivity.
Qed.

Lemma graph1_y1_at_doc (t : R) : y1_at t = Doc.T PARAM_A PARAM_B PARAM_C t.
Proof.
  unfold y1_at, Doc.T; cbn. unfold Rdiv.
  now rewrite Ropp_mult_distr_l.
Qed.

Lemma graph1_y2_at_doc (t : R) : y2_at t = Doc.T PARAM_A PARAM_B PARAM_D t.
Proof.
  unfold y2_at, Doc.T; cbn. unfold Rdiv.
  now rewrite Ropp_mult_distr_l.
Qed.

(** C5: on every input sequence the theory evaluator of pipeline 1
    returns, element by element, [T(t) = Tmax + (T0 - Tmax) exp(-t/tau)]
    with [Tmax = PARAM_A], [T0 = PARAM_B], and [tau = PARAM_C] on the
    first channel, [tau = PARAM_D] on the second. *)
Theorem graph1_calc_theory_is_relaxation (x_data : list R) :
  calc_theory x_data =
    (map (Doc.T PARAM_A PARAM_B PARAM_C) x_data,
     map (Doc.T PARAM_A PARAM_B PARAM_D) x_data).
Proof.
  rewrite graph1_calc_theory_map. f_equal.
  - apply map_ext, graph1_y1_at_doc.
  - apply map_ext, graph1_y2_at_doc.
Qed.

Lemma exp_neg_below_inverse (s : R) : 0 < s -> exp (- s) < / s.
Proof.
  intros Hs. rewrite exp_Ropp.
  apply Rinv_lt_contravar.
  - apply Rmult_lt_0_compat; [assumption | apply exp_pos].
  - assert (1 + s < exp s) by (apply exp_ineq1; lra). lra.
Qed.

(** Distance to the asymptote after time [t], for a time constant
    [tau] of at most 25 minutes. *)
Lemma relaxation_gap (tau eps t : R) :
  0 < tau <= 25 -> 0 < eps -> 625 / eps < t ->
  Rabs (Doc.T PARAM_A PARAM_B tau t - PARAM_A) < eps.
Proof.
  intros [Htau Hle] Heps Ht. unfold Doc.T, PARAM_A, PARAM_B.
  assert (Hq : 0 < 625 / eps)
    by (apply Rdiv_lt_0_compat; lra).
  assert (Hs : 25 / eps < t / tau).
  { apply Rmult_lt_reg_r with (r := tau); [assumption|].
    unfold Rdiv at 2. rewrite Rmult_assoc, Rinv_l, Rmult_1_r by lra.
    apply Rle_lt_trans with (r2 := 25 / eps * 25).
    - apply Rmult_le_compat_l; [|assumption].
      apply Rlt_le, Rdiv_lt_0_compat; lra.
    - replace (25 / eps * 25) with (625 / eps) by (field; lra).
      assumption. }
  assert (Hs0 : 0 < 25 / eps) by (apply Rdiv_lt_0_compat; lra).
  assert (He : exp (- (t / tau)) < / (t / tau))
    by (apply exp_neg_below_inverse; lra).
  assert (Hi : / (t / tau) < / (25 / eps)).
  { apply Rinv_lt_contravar; [|assumption].
    apply Rmult_lt_0_compat; lra. }
  replace (/ (25 / eps)) with (eps / 25) in Hi by (field; lra).
  pose proof (exp_pos (- (t / tau))) as Hp.
  replace (50 + (25 - 50) * exp (- (t / tau)) - 50)
    with (- (25 * exp (- (t / tau)))) by ring.
  rewrite Rabs_Ropp, Rabs_pos_eq by lra. lra.
Qed.

(** C6: at [t = 0] both channels of pipeline 1 equal the initial
    temperature [PARAM_B]; as [t] grows without bound every output value
    comes within any [eps > 0] of the asymptote [PARAM_A]. *)
Theorem graph1_initial_value_and_asymptote :
  calc_theory [0] = ([PARAM_B], [PARAM_B]) /\
  forall eps, 0 < eps ->
    exists t0, forall x_data,
      Forall (fun t => t0 < t) x_data ->
      Forall (fun v => Rabs (v - PARAM_A) < eps) (fst (calc_theory x_data)) /\
      Forall (fun v => Rabs (v - PARAM_A) < eps) (snd (calc_theory x_data)).
Proof.
  split.
  - rewrite graph1_calc_theory_map. cbn [map].
    rewrite graph1_y1_at_doc, graph1_y2_at_doc. unfold Doc.T.
    unfold Rdiv. rewrite !Rmult_0_l, Ropp_0, exp_0.
    f_equal; f_equal; ring.
  - intros eps Heps. exists (625 / eps). intros x_data Hx.
    rewrite graph1_calc_theory_map. cbn [fst snd].
    split; apply Forall_map; eapply Forall_impl; try exact Hx;
      cbn beta; intros t Ht;
      [rewrite graph1_y1_at_doc | rewrite graph1_y2_at_doc];
      apply relaxation_gap;
      unfold PARAM_C, PARAM_D; try assumption; lra.
Qed.

Lemma graph1_initial_value_and_asymptote_witness :
  0 < 1 /\
  exists t0, forall x_data,
    Forall (fun t => t0 < t) x_data ->
    Forall (fun v => Rabs (v - PARAM_A) < 1) (fst (calc_theory x_data)) /\
    Forall (fun v => Rabs (v - PARAM_A) < 1) (snd (calc_theory x_data)).
Proof.
  split; [lra | apply (proj2 graph1_initial_value_and_asymptote 1); lra].
Defined.

End TheoryPipeline1.

Section TheoryPipeline2.
Import Graph2.
Local Open Scope R_scope.

Lemma PARAM_A_pos : 0 < PARAM_A.
Proof. unfold PARAM_A. pose proof PI_RGT_0. lra. Qed.

Lemma PARAM_B_pos : 0 < PARAM_B.
Proof. unfold PARAM_B. apply Rinv_0_lt_compat. lra. Qed.


Lemma graph2_divide_map (g h : R -> R) (a : list R) :
  NpR.divide (map g a) (map h a) = map (fun v => g v / h v) a.
Proof. induction a as [|v a IH]; cbn; [reflexivity | now rewrite IH]. Qed.

(** What the code computes at one frequency. *)
Lemma graph2_y1_at_eq (f : R) :
  y1_at f = 1 / sqrt (1 + PARAM_B * (PARAM_A * f) ^ 2).
Proof. reflexivity. Qed.


Lemma graph2_calc_theory_map (x_data : list R) :
  calc_theory x_data = (map y1_at x_data, map y2_at x_data).
Proof.
  unfold calc_theory, NpR.scalar_div, NpR.np_sqrt, NpR.scalar_add,
    NpR.scalar_mul, NpR.power.
  rewrite !map_map. f_equal.
  rewrite <- (map_map (fun v => PARAM_A * v)
                (fun o => sqrt (1 + PARAM_B * o ^ 2))).
  rewrite <- (map_map (fun v => PARAM_A * v) (fun o => PARAM_C * o)).
  rewrite graph2_divide_map, map_map. reflexivity.
Qed.

Lemma radicand_pos (w : R) : 0 < 1 + PARAM_B * w ^ 2.
Proof.
  pose proof PARAM_B_pos. pose proof (pow2_ge_0 w).
  assert (0 <= PARAM_B * w ^ 2) by (apply Rmult_le_pos; lra). lra.
Qed.

Lemma denominator_pos (w : R) : 0 < sqrt (1 + PARAM_B * w ^ 2).
Proof. apply sqrt_lt_R0, radicand_pos. Qed.

(** The code and its docstring disagree at every non-zero frequency:
    the code multiplies [omega^2] by [RC], the docstring squares
    [omega RC]. *)
Lemma graph2_y1_differs_from_doc (f : R) :
  f <> 0 -> y1_at f <> Doc.G1 PARAM_B f.
Proof.
  intros Hf Heq. rewrite graph2_y1_at_eq in Heq. unfold Doc.G1 in Heq.
  fold PARAM_A in Heq. cbv zeta in Heq.
  set (w := PARAM_A * f) in *.
  assert (Hw : w <> 0).
  { unfold w. pose proof PARAM_A_pos. apply Rmult_integral_contrapositive.
    split; lra. }
  assert (Hw2 : 0 < w ^ 2).
  { replace (w ^ 2) with (Rsqr w) by (unfold Rsqr; ring).
    now apply Rsqr_pos_lt. }
  pose proof (denominator_pos w) as Hd.
  assert (Hr : 0 < 1 + (w * PARAM_B) ^ 2)
    by (pose proof (pow2_ge_0 (w * PARAM_B)); lra).
  pose proof (sqrt_lt_R0 _ Hr) as Hd'.
  assert (Hs : sqrt (1 + PARAM_B * w ^ 2) = sqrt (1 + (w * PARAM_B) ^ 2)).
  { apply Rinv_eq_reg. unfold Rdiv in Heq. now rewrite !Rmult_1_l in Heq. }
  apply sqrt_inj in Hs; try lra.
  - assert (Hb : PARAM_B * w ^ 2 = PARAM_B * PARAM_B * w ^ 2) by (rewrite Rpow_mult_distr in Hs; lra).
    assert (Hbb : PARAM_B = PARAM_B * PARAM_B).
    { apply Rmult_eq_reg_r with (r := w ^ 2); lra. }
    unfold PARAM_B in Hbb.
    assert (Hk : / 10 ^ 6 * 10 ^ 6 = 1) by (apply Rinv_l; lra).
    assert (Hk2 : / 10 ^ 6 * / 10 ^ 6 * 10 ^ 6 = / 10 ^ 6)
      by (rewrite Rmult_assoc, Hk; ring).
    rewrite <- Hbb in Hk2.
    assert (/ 10 ^ 6 < 1).
    { rewrite <- Rinv_1. apply Rinv_lt_contravar; lra. }
    lra.
  - pose proof (radicand_pos w). lra.
Qed.

(** At the cut-off frequency [fc = 1/(2 pi RC)] of the comment on
    [PARAM_B], the documented gain is [1/sqrt 2]; the code returns
    [1/sqrt (1 + 10^6)]. *)
Lemma graph2_gain_at_documented_cutoff :
  Doc.G1 PARAM_B (1 / (PARAM_A * PARAM_B)) = 1 / sqrt 2 /\
  y1_at (1 / (PARAM_A * PARAM_B)) = 1 / sqrt (1 + 10 ^ 6).
Proof.
  pose proof PARAM_A_pos as HA. pose proof PARAM_B_pos as HB.
  split.
  - unfold Doc.G1. cbv zeta. fold PARAM_A.
    replace (PARAM_A * (1 / (PARAM_A * PARAM_B)) * PARAM_B) with 1
      by (field; split; lra).
    do 2 f_equal. ring.
  - rewrite graph2_y1_at_eq.
    replace (PARAM_A * (1 / (PARAM_A * PARAM_B))) with (/ PARAM_B)
      by (field; split; lra).
    do 3 f_equal. unfold PARAM_B. rewrite Rinv_inv. field.
Qed.

(** C1: on the one-element input [[1.0]] the value returned by the theory
    evaluator of pipeline 2 is not the pair of documented gains
    [1/sqrt(1+(w RC)^2)], [K w RC/sqrt(1+(w RC)^2)] with [RC = PARAM_B]
    and [K = PARAM_C]. *)
Theorem graph2_calc_theory_not_documented_gain :
  calc_theory [1] <>
    (map (Doc.G1 PARAM_B) [1], map (Doc.G2 PARAM_C PARAM_B) [1]).
Proof.
  rewrite graph2_calc_theory_map. cbn [map]. intros Heq.
  injection Heq as H1 _.
  revert H1. apply graph2_y1_differs_from_doc. lra.
Qed.











(** With the configured constants the saturation level is 1. *)
Lemma graph2_saturation_value : saturation = 1.
Proof.
  unfold saturation, PARAM_C, PARAM_B.
  replace (/ 10 ^ 6) with ((/ 10 ^ 3) * (/ 10 ^ 3)) by (field; lra).
  rewrite sqrt_square by (apply Rlt_le, Rinv_0_lt_compat; lra).
  field.
Qed.

End TheoryPipeline2.

(** * The validity filter *)

Section Mask.
Import Py Script Series.

(** A strictly positive float is not NaN. *)
Lemma gt0_not_nan (v : float) :
  Float64.gt0 v = true -> Float64.isnan v = false.
Proof.
  unfold Float64.gt0, Float64.isnan, PrimFloat.is_nan.
  rewrite ltb_spec, FloatAxioms.eqb_spec.
  destruct (Prim2SF v) as [s| s| |s m e]; cbn; try discriminate; intros _.
  - destruct s; reflexivity.
  - unfold SFeqb, SFcompare.
    rewrite Z.compare_refl, Pos.compare_cont_refl.
    destruct s; reflexivity.
Qed.

Lemma getitem_rows (df : DataFrame) (col : string) (s : series) :
  getitem df col = Ok s ->
  exists i, s = map (fun r => nth i r nan) (rows df).
Proof.
  unfold getitem. destruct (index_of col (columns df)) as [i|];
    [|discriminate].
  intros H. injection H as <-. now exists i.
Qed.

Lemma getitem_absent (df : DataFrame) (col : string) :
  index_of col (columns df) = None ->
  getitem df col = Raise (mk_exn KeyError col).
Proof. unfold getitem. now intros ->. Qed.

(** Boolean indexing of columns read off the same rows is a filter on
    the rows. *)
Section RowFilter.
Context {row : Type}.
Variables (fx fy1 fy2 : row -> float).

Let row_valid1 := RowView.row_valid1 fx fy1 fy2.
Let row_valid2 := RowView.row_valid2 fx fy1 fy2.

Lemma graph1_mask_rows (rs : list row) :
  Graph1.mask (map fx rs) (map fy1 rs) (map fy2 rs) = map row_valid1 rs.
Proof.
  unfold Graph1.mask, np_isnan, invert.
  induction rs as [|r rs IH]; [reflexivity|].
  cbn [map band]. now rewrite IH.
Qed.

Lemma graph2_mask_rows (rs : list row) :
  Graph2.mask (map fx rs) (map fy1 rs) (map fy2 rs) = map row_valid2 rs.
Proof.
  unfold Graph2.mask, np_isnan, gt_zero, invert.
  induction rs as [|r rs IH]; [reflexivity|].
  cbn [map band]. now rewrite IH.
Qed.

Lemma getitem_mask_rows (f : row -> float) (valid : row -> bool)
      (rs : list row) :
  getitem_mask (map f rs) (map valid rs) = map f (filter valid rs).
Proof.
  induction rs as [|r rs IH]; [reflexivity|].
  cbn [map getitem_mask filter].
  destruct (valid r); cbn [map]; now rewrite IH.
Qed.

Lemma graph1_clean_rows (rs : list row) :
  Graph1.clean (map fx rs, map fy1 rs, map fy2 rs) =
    (map fx (filter row_valid1 rs),
     map fy1 (filter row_valid1 rs),
     map fy2 (filter row_valid1 rs)).
Proof.
  unfold Graph1.clean. rewrite graph1_mask_rows.
  now rewrite !getitem_mask_rows.
Qed.

Lemma graph2_clean_rows (rs : list row) :
  Graph2.clean (map fx rs, map fy1 rs, map fy2 rs) =
    (map fx (filter row_valid2 rs),
     map fy1 (filter row_valid2 rs),
     map fy2 (filter row_valid2 rs)).
Proof.
  unfold Graph2.clean. rewrite graph2_mask_rows.
  now rewrite !getitem_mask_rows.
Qed.

Lemma filter_map_Forall (valid : row -> bool) (f : row -> float)
      (P : float -> Prop) (rs : list row) :
  (forall r, valid r = true -> P (f r)) ->
  Forall P (map f (filter valid rs)).
Proof.
  intros H. apply Forall_map, Forall_forall.
  intros r Hr. apply filter_In in Hr. now apply H.
Qed.

Lemma row_valid1_spec (r : row) :
  row_valid1 r = true ->
  Float64.isnan (fx r) = false /\ Float64.isnan (fy1 r) = false
  /\ Float64.isnan (fy2 r) = false.
Proof.
  unfold row_valid1, RowView.row_valid1.
  rewrite !andb_true_iff, !negb_true_iff. tauto.
Qed.

Lemma row_valid2_spec (r : row) :
  row_valid2 r = true ->
  Float64.gt0 (fx r) = true /\ Float64.gt0 (fy1 r) = true
  /\ Float64.gt0 (fy2 r) = true.
Proof.
  unfold row_valid2, RowView.row_valid2. rewrite !andb_true_iff. tauto.
Qed.

End RowFilter.

Lemma graph1_clean_columns (df : DataFrame) (cx cy1 cy2 : string)
      (x0 y10 y20 x y1 y2 : series) :
  getitem df cx = Ok x0 -> getitem df cy1 = Ok y10 ->
  getitem df cy2 = Ok y20 ->
  Graph1.clean (x0, y10, y20) = (x, y1, y2) ->
  List.length (Graph1.mask x0 y10 y20) = List.length (rows df) /\
  (x = getitem_mask x0 (Graph1.mask x0 y10 y20) /\
   y1 = getitem_mask y10 (Graph1.mask x0 y10 y20) /\
   y2 = getitem_mask y20 (Graph1.mask x0 y10 y20)) /\
  (List.length x = List.length y1 /\ List.length y1 = List.length y2) /\
  (no_nan x /\ no_nan y1 /\ no_nan y2).
Proof.
  intros Hx Hy1 Hy2 Hc.
  apply getitem_rows in Hx as [i ->].
  apply getitem_rows in Hy1 as [j ->].
  apply getitem_rows in Hy2 as [k ->].
  split; [rewrite graph1_mask_rows; apply length_map|].
  split; [unfold Graph1.clean in Hc; injection Hc as <- <- <-; tauto|].
  rewrite graph1_clean_rows in Hc. injection Hc as <- <- <-.
  split; [rewrite !length_map; tauto|].
  repeat split; apply filter_map_Forall; intros r Hr;
    apply row_valid1_spec in Hr; tauto.
Qed.

Lemma graph2_clean_columns (df : DataFrame) (cx cy1 cy2 : string)
      (x0 y10 y20 x y1 y2 : series) :
  getitem df cx = Ok x0 -> getitem df cy1 = Ok y10 ->
  getitem df cy2 = Ok y20 ->
  Graph2.clean (x0, y10, y20) = (x, y1, y2) ->
  List.length (Graph2.mask x0 y10 y20) = List.length (rows df) /\
  (x = getitem_mask x0 (Graph2.mask x0 y10 y20) /\
   y1 = getitem_mask y10 (Graph2.mask x0 y10 y20) /\
   y2 = getitem_mask y20 (Graph2.mask x0 y10 y20)) /\
  (List.length x = List.length y1 /\ List.length y1 = List.length y2) /\
  (all_positive x /\ all_positive y1 /\ all_positive y2).
Proof.
  intros Hx Hy1 Hy2 Hc.
  apply getitem_rows in Hx as [i ->].
  apply getitem_rows in Hy1 as [j ->].
  apply getitem_rows in Hy2 as [k ->].
  split; [rewrite graph2_mask_rows; apply length_map|].
  split; [unfold Graph2.clean in Hc; injection Hc as <- <- <-; tauto|].
  rewrite graph2_clean_rows in Hc. injection Hc as <- <- <-.
  split; [rewrite !length_map; tauto|].
  repeat split; apply filter_map_Forall; intros r Hr;
    apply row_valid2_spec in Hr; tauto.
Qed.

Lemma all_positive_no_nan (s : series) : all_positive s -> no_nan s.
Proof.
  unfold all_positive, no_nan. intros H.
  eapply Forall_impl; [|exact H]. apply gt0_not_nan.
Qed.

(** C2, as the code has it: the three cleaned columns are the three
    loaded columns indexed by one and the same mask, which has one entry
    per row; they have equal length and hold no NaN; in pipeline 2 every
    kept value is moreover strictly positive.  Infinite values are not
    filtered out. *)
Theorem cleaned_columns_aligned_without_nan :
  (forall df x0 y10 y20 x y1 y2,
      getitem df Graph1.X_COL = Ok x0 ->
      getitem df Graph1.Y1_COL = Ok y10 ->
      getitem df Graph1.Y2_COL = Ok y20 ->
      Graph1.clean (x0, y10, y20) = (x, y1, y2) ->
      List.length (Graph1.mask x0 y10 y20) = List.length (rows df) /\
      (x = getitem_mask x0 (Graph1.mask x0 y10 y20) /\
       y1 = getitem_mask y10 (Graph1.mask x0 y10 y20) /\
       y2 = getitem_mask y20 (Graph1.mask x0 y10 y20)) /\
      (List.length x = List.length y1 /\ List.length y1 = List.length y2) /\
      (no_nan x /\ no_nan y1 /\ no_nan y2)) /\
  (forall df x0 y10 y20 x y1 y2,
      getitem df Graph2.X_COL = Ok x0 ->
      getitem df Graph2.Y1_COL = Ok y10 ->
      getitem df Graph2.Y2_COL = Ok y20 ->
      Graph2.clean (x0, y10, y20) = (x, y1, y2) ->
      List.length (Graph2.mask x0 y10 y20) = List.length (rows df) /\
      (x = getitem_mask x0 (Graph2.mask x0 y10 y20) /\
       y1 = getitem_mask y10 (Graph2.mask x0 y10 y20) /\
       y2 = getitem_mask y20 (Graph2.mask x0 y10 y20)) /\
      (List.length x = List.length y1 /\ List.length y1 = List.length y2) /\
      (no_nan x /\ no_nan y1 /\ no_nan y2) /\
      (all_positive x /\ all_positive y1 /\ all_positive y2)).
Proof.
  split; intros df x0 y10 y20 x y1 y2 Hx Hy1 Hy2 Hc.
  - eapply graph1_clean_columns; eassumption.
  - destruct (graph2_clean_columns _ _ _ _ _ _ _ _ _ _ Hx Hy1 Hy2 Hc)
      as (Hm & Hsel & Hlen & Hp1 & Hp2 & Hp3).
    repeat split; try tauto; now apply all_positive_no_nan.
Qed.

(** A sheet with a NaN cell, a negative cell and an infinite cell. *)
Lemma cleaned_columns_aligned_without_nan_witness :
  let df1 := mk_df ["Time"; "Temp1"; "Temp2"]%string
               [[0; 25; 25]; [1; nan; 26]; [2; 28; infinity]]%float in
  let df2 := mk_df ["Hz"; "G_s"; "G_b"]%string
               [[10; 1; 0.5]; [100; -1; 0.5]; [1000; 0.5; infinity]]%float
  in
  (no_nan [0; 2]%float /\ no_nan [25; 28]%float
   /\ no_nan [25; infinity]%float) /\
  (all_positive [10; 1000]%float /\ all_positive [1; 0.5]%float
   /\ all_positive [0.5; infinity]%float).
Proof.
  cbv zeta. split.
  - apply (proj1 cleaned_columns_aligned_without_nan
             (mk_df ["Time"; "Temp1"; "Temp2"]%string
                [[0; 25; 25]; [1; nan; 26]; [2; 28; infinity]]%float)
             [0; 1; 2]%float [25; nan; 28]%float [25; 26; infinity]%float);
      reflexivity.
  - apply (proj2 cleaned_columns_aligned_without_nan
             (mk_df ["Hz"; "G_s"; "G_b"]%string
                [[10; 1; 0.5]; [100; -1; 0.5]; [1000; 0.5; infinity]]%float)
             [10; 100; 1000]%float [1; -1; 0.5]%float
             [0.5; 0.5; infinity]%float);
      reflexivity.
Defined.

(** C2 as stated fails: a row holding an infinite value passes both
    masks, so the cleaned columns can hold a non-finite value. *)
Lemma cleaned_columns_may_hold_infinity :
  (getitem (mk_df ["Time"; "Temp1"; "Temp2"]%string [[infinity; 1; 1]%float])
     Graph1.X_COL = Ok [infinity] /\
   Graph1.clean ([infinity], [1], [1])%float
     = ([infinity], [1], [1])%float) /\
  (getitem (mk_df ["Hz"; "G_s"; "G_b"]%string [[infinity; 1; 1]%float])
     Graph2.X_COL = Ok [infinity] /\
   Graph2.clean ([infinity], [1], [1])%float
     = ([infinity], [1], [1])%float) /\
  ~ all_finite [infinity].
Proof.
  repeat split; try reflexivity.
  intros H. inversion H as [|v l Hv Hl]; subst.
  vm_compute in Hv. discriminate.
Qed.

End Mask.

(** * Control flow of the scripts *)

Section Monad.
Import Py.

Lemma bind_Ok {A B} (m : M A) (k : A -> M B) (a : A) :
  outcome m = Ok a ->
  bind m k = (trace m ++ trace (k a), outcome (k a)).
Proof.
  destruct m as [t r]; cbn. intros ->. cbn. now destruct (k a).
Qed.

Lemma bind_Raise {A B} (m : M A) (k : A -> M B) (e : exn) :
  outcome m = Raise e -> bind m k = (trace m, Raise e).
Proof. destruct m as [t r]; cbn. now intros ->. Qed.

Lemma try_except_Ok {A} (body : M A) catches handler (a : A) :
  outcome body = Ok a ->
  try_except body catches handler = body.
Proof. destruct body as [t r]; cbn. now intros ->. Qed.

Lemma try_except_caught {A} (body : M A) catches handler (e : exn) :
  outcome body = Raise e -> catches e = true ->
  try_except body catches handler =
    (trace body ++ trace (handler e), outcome (handler e)).
Proof.
  destruct body as [t r]; cbn. intros -> ->. now destruct (handler e).
Qed.

Lemma try_except_escapes {A} (body : M A) catches handler (e : exn) :
  outcome body = Raise e -> catches e = false ->
  try_except body catches handler = body.
Proof. destruct body as [t r]; cbn. now intros -> ->. Qed.

Lemma M_eta {A} (m : M A) : m = (trace m, outcome m).
Proof. now destruct m. Qed.

End Monad.

Section OpenFile.
Import Py Script.
Local Open Scope string_scope.

Variable w : world.
Variable path : string.

Let open_cmd := Subprocess ["open"; path] false.
Let start_cmd := Subprocess ["start"; path] true.
Let xdg_cmd := Subprocess ["xdg-open"; path] false.

Lemma run_returns (cmd : list string) (shell : bool) :
  raised (subprocess_run w cmd shell) = false ->
  run w cmd shell = ([Subprocess cmd shell], Ok tt).
Proof.
  unfold run. destruct (subprocess_run w cmd shell); [|discriminate].
  reflexivity.
Qed.

Lemma run_raises (cmd : list string) (shell : bool) :
  raised (subprocess_run w cmd shell) = true ->
  exists e, run w cmd shell = ([Subprocess cmd shell], Raise e).
Proof.
  unfold run. destruct (subprocess_run w cmd shell) as [|e]; [discriminate|].
  now exists e.
Qed.

Lemma open_file_outcome : outcome (open_file w path) = Ok tt.
Proof.
  unfold open_file, run.
  destruct (subprocess_run w ["open"; path] false); [reflexivity|].
  destruct (subprocess_run w ["start"; path] true); [reflexivity|].
  destruct (subprocess_run w ["xdg-open"; path] false); reflexivity.
Qed.

Lemma open_file_trace :
  trace (open_file w path) =
    open_cmd ::
    if raised (subprocess_run w ["open"; path] false) then
      start_cmd ::
      if raised (subprocess_run w ["start"; path] true) then
        xdg_cmd ::
        if raised (subprocess_run w ["xdg-open"; path] false) then
          [Print ("グラフを保存しました: " ++ path);
           Print "ファイルを手動で開いてください。"]
        else []
      else []
    else [].
Proof.
  unfold open_file, run.
  destruct (subprocess_run w ["open"; path] false); [reflexivity|].
  destruct (subprocess_run w ["start"; path] true); [reflexivity|].
  destruct (subprocess_run w ["xdg-open"; path] false); reflexivity.
Qed.

End OpenFile.

(** ** Properties of every event of a trace *)

Section TraceForall.
Import Py.
Variable P : event -> Prop.

Lemma Forall_trace_ret {A} (a : A) : Forall P (trace (ret a)).
Proof. constructor. Qed.

Lemma Forall_trace_lift {A} (r : result A) : Forall P (trace (lift r)).
Proof. constructor. Qed.

Lemma Forall_trace_emit (ev : event) : P ev -> Forall P (trace (emit ev)).
Proof. intros H. cbn. now constructor. Qed.

Lemma Forall_trace_bind {A B} (m : M A) (k : A -> M B) :
  Forall P (trace m) -> (forall a, Forall P (trace (k a))) ->
  Forall P (trace (bind m k)).
Proof.
  intros Hm Hk. destruct m as [t [a|e]]; cbn in *; [|assumption].
  specialize (Hk a). destruct (k a) as [t' r]; cbn in *.
  apply Forall_app; now split.
Qed.

Lemma Forall_trace_try {A} (body : M A) catches handler :
  Forall P (trace body) -> (forall e, Forall P (trace (handler e))) ->
  Forall P (trace (try_except body catches handler)).
Proof.
  intros Hb Hh. destruct body as [t [a|e]]; cbn in *; [assumption|].
  destruct (catches e); [|assumption].
  specialize (Hh e). destruct (handler e) as [t' r]; cbn in *.
  apply Forall_app; now split.
Qed.

End TraceForall.

Ltac trace_all :=
  repeat first
    [ apply Forall_trace_bind; [|intros ?]
    | apply Forall_trace_try; [|intros ?]
    | apply Forall_trace_emit
    | apply Forall_trace_lift
    | apply Forall_trace_ret ].

Section Blocks.
Import Py Script Series.
Local Open Scope string_scope.

Variable w : world.

Lemma font_setup_outcome : outcome (font_setup w) = Ok tt.
Proof. unfold font_setup. now destruct (addfont w). Qed.

Lemma font_setup_draws_nothing :
  Forall (fun ev => is_drawing ev = false) (trace (font_setup w)).
Proof. unfold font_setup. trace_all; reflexivity. Qed.

Lemma font_setup_no_log10 (Q : list float -> Prop) :
  Forall (fun ev => forall arg, ev = Log10 arg -> Q arg)
         (trace (font_setup w)).
Proof. unfold font_setup. trace_all; intros arg H; discriminate. Qed.

Lemma load_trace (file cx cy1 cy2 : string) :
  trace (load w file cx cy1 cy2) = [].
Proof.
  unfold load.
  destruct (read_excel w (path_join (current_dir w) file)) as [df|];
    [|reflexivity]; cbn.
  destruct (getitem df cx); [|reflexivity]; cbn.
  destruct (getitem df cy1); [|reflexivity]; cbn.
  destruct (getitem df cy2); reflexivity.
Qed.

(** What a successful load returns. *)
Lemma load_Ok_inv (file cx cy1 cy2 : string) (d : series * series * series) :
  outcome (load w file cx cy1 cy2) = Ok d ->
  exists df x0 y10 y20,
    read_excel w (path_join (current_dir w) file) = Ok df /\
    getitem df cx = Ok x0 /\ getitem df cy1 = Ok y10 /\
    getitem df cy2 = Ok y20 /\ d = (x0, y10, y20).
Proof.
  unfold load.
  destruct (read_excel w (path_join (current_dir w) file)) as [df|];
    [|discriminate]; cbn.
  destruct (getitem df cx) as [x0|] eqn:Ex; [|discriminate]; cbn.
  destruct (getitem df cy1) as [y10|] eqn:Ey1; [|discriminate]; cbn.
  destruct (getitem df cy2) as [y20|] eqn:Ey2; [|discriminate]; cbn.
  intros H. injection H as <-. now exists df, x0, y10, y20.
Qed.

(** A missing column makes the load raise [KeyError] on the first
    missing name, in the order the script reads the columns. *)
Lemma load_missing_column (file cx cy1 cy2 : string) (df : DataFrame) :
  read_excel w (path_join (current_dir w) file) = Ok df ->
  index_of cx (columns df) = None \/
  index_of cy1 (columns df) = None \/
  index_of cy2 (columns df) = None ->
  exists col,
    (col = cx \/ col = cy1 \/ col = cy2) /\
    index_of col (columns df) = None /\
    outcome (load w file cx cy1 cy2) = Raise (mk_exn KeyError col).
Proof.
  intros Hr Hmiss. unfold load. rewrite Hr; cbn.
  unfold getitem.
  destruct (index_of cx (columns df)) eqn:Ex; cbn;
    [|exists cx; auto].
  destruct (index_of cy1 (columns df)) eqn:Ey1; cbn;
    [|exists cy1; auto].
  destruct (index_of cy2 (columns df)) eqn:Ey2; cbn;
    [|exists cy2; auto].
  destruct Hmiss as [H|[H|H]]; discriminate.
Qed.

(** The three ways [finish] can go. *)
Lemma finish_returns (xlog ylog grid : bool) :
  axis_block w = None -> savefig w (output_path w) = None ->
  finish w xlog ylog grid =
    (Axes xlog ylog grid :: Savefig (output_path w)
       :: trace (open_file w (output_path w)),
     Ok tt).
Proof.
  intros Ha Hs. unfold finish, call. rewrite Ha, Hs.
  pose proof (open_file_outcome w (output_path w)) as Ho.
  destruct (open_file w (output_path w)) as [t r]; cbn in *.
  now rewrite Ho.
Qed.

Lemma finish_axis_raises (xlog ylog grid : bool) (e : exn) :
  axis_block w = Some e ->
  finish w xlog ylog grid = ([], Raise e).
Proof. intros Ha. unfold finish, call. now rewrite Ha. Qed.

Lemma finish_savefig_raises (xlog ylog grid : bool) (e : exn) :
  axis_block w = None -> savefig w (output_path w) = Some e ->
  finish w xlog ylog grid = ([Axes xlog ylog grid], Raise e).
Proof. intros Ha Hs. unfold finish, call. now rewrite Ha, Hs. Qed.

Lemma finish_cases (xlog ylog grid : bool) :
  (exists e, finish w xlog ylog grid = ([], Raise e)) \/
  (exists e, finish w xlog ylog grid = ([Axes xlog ylog grid], Raise e)) \/
  finish w xlog ylog grid =
    (Axes xlog ylog grid :: Savefig (output_path w)
       :: trace (open_file w (output_path w)),
     Ok tt).
Proof.
  destruct (axis_block w) as [e|] eqn:Ha.
  - left. exists e. now apply finish_axis_raises.
  - destruct (savefig w (output_path w)) as [e|] eqn:Hs.
    + right; left. exists e. now apply finish_savefig_raises.
    + right; right. now apply finish_returns.
Qed.

Lemma finish_Ok_inv (xlog ylog grid : bool) :
  outcome (finish w xlog ylog grid) = Ok tt ->
  axis_block w = None /\ savefig w (output_path w) = None.
Proof.
  destruct (axis_block w) as [e|] eqn:Ha.
  - rewrite (finish_axis_raises _ _ _ e Ha). discriminate.
  - destruct (savefig w (output_path w)) as [e|] eqn:Hs; [|auto].
    rewrite (finish_savefig_raises _ _ _ e Ha Hs). discriminate.
Qed.

(** The columns of a loaded sheet are read off the same rows. *)
Lemma load_rows (file cx cy1 cy2 : string) (d : series * series * series) :
  outcome (load w file cx cy1 cy2) = Ok d ->
  exists (rs : list (list float)) (fx fy1 fy2 : list float -> float),
    d = (map fx rs, map fy1 rs, map fy2 rs).
Proof.
  intros H.
  destruct (load_Ok_inv _ _ _ _ d H)
    as (df & x0 & y10 & y20 & _ & Hx & Hy1 & Hy2 & ->).
  unfold getitem in *.
  destruct (index_of cx (columns df)) as [i|]; [|discriminate].
  destruct (index_of cy1 (columns df)) as [j|]; [|discriminate].
  destruct (index_of cy2 (columns df)) as [k|]; [|discriminate].
  injection Hx as <-. injection Hy1 as <-. injection Hy2 as <-.
  now exists (rows df), (fun r => nth i r nan), (fun r => nth j r nan),
    (fun r => nth k r nan).
Qed.

End Blocks.

Section MaskLine.
Import Py Script Series.

Lemma np_isnan_checked_rows {row : Type} (f : row -> float) (r : row)
      (rs : list row) :
  np_isnan_checked (map f (r :: rs)) = ret (np_isnan (map f (r :: rs))).
Proof. reflexivity. Qed.

(** On the columns of a sheet with a data row the mask line returns what
    [clean] computes; on a sheet without data rows it raises. *)
Lemma graph1_filter_rows {row : Type} (fx fy1 fy2 : row -> float)
      (rs : list row) :
  Graph1.filter (map fx rs, map fy1 rs, map fy2 rs) =
    match rs with
    | [] => ([], Raise isnan_refused)
    | _ :: _ => ([], Ok (Graph1.clean (map fx rs, map fy1 rs, map fy2 rs)))
    end.
Proof. destruct rs as [|r rs]; reflexivity. Qed.

Lemma graph2_filter_rows {row : Type} (fx fy1 fy2 : row -> float)
      (rs : list row) :
  Graph2.filter (map fx rs, map fy1 rs, map fy2 rs) =
    match rs with
    | [] => ([], Raise isnan_refused)
    | _ :: _ => ([], Ok (Graph2.clean (map fx rs, map fy1 rs, map fy2 rs)))
    end.
Proof. destruct rs as [|r rs]; reflexivity. Qed.

Lemma graph1_filter_loaded (w : world) (d : series * series * series) :
  outcome (load w Graph1.DATA_FILE Graph1.X_COL Graph1.Y1_COL
                Graph1.Y2_COL) = Ok d ->
  (fst (fst d) = [] /\ Graph1.filter d = ([], Raise isnan_refused)) \/
  (fst (fst d) <> [] /\ Graph1.filter d = ([], Ok (Graph1.clean d))).
Proof.
  intros H. destruct (load_rows w _ _ _ _ d H) as (rs & fx & fy1 & fy2 & ->).
  rewrite graph1_filter_rows. destruct rs as [|r rs]; cbn [fst map].
  - now left.
  - right. split; [discriminate | reflexivity].
Qed.

Lemma graph2_filter_loaded (w : world) (d : series * series * series) :
  outcome (load w Graph2.DATA_FILE Graph2.X_COL Graph2.Y1_COL
                Graph2.Y2_COL) = Ok d ->
  (fst (fst d) = [] /\ Graph2.filter d = ([], Raise isnan_refused)) \/
  (fst (fst d) <> [] /\ Graph2.filter d = ([], Ok (Graph2.clean d))).
Proof.
  intros H. destruct (load_rows w _ _ _ _ d H) as (rs & fx & fy1 & fy2 & ->).
  rewrite graph2_filter_rows. destruct rs as [|r rs]; cbn [fst map].
  - now left.
  - right. split; [discriminate | reflexivity].
Qed.

(** Cleaned columns that are not empty come from a sheet with rows. *)
Lemma graph1_clean_nonempty (d : series * series * series)
      (x y1 y2 : series) :
  Graph1.clean d = (x, y1, y2) -> x <> [] -> fst (fst d) <> [].
Proof.
  destruct d as [[x0 y10] y20]. cbn [fst]. intros H Hx ->.
  cbn in H. injection H as <- _ _. now apply Hx.
Qed.

Lemma graph2_clean_nonempty (d : series * series * series)
      (x y1 y2 : series) :
  Graph2.clean d = (x, y1, y2) -> x <> [] -> fst (fst d) <> [].
Proof.
  destruct d as [[x0 y10] y20]. cbn [fst]. intros H Hx ->.
  cbn in H. injection H as <- _ _. now apply Hx.
Qed.

End MaskLine.

Section Shape.
Import Py.

(** Both [render] functions are five statements before [finish]. *)
Lemma render_shape (a b c : event) (tb fb fin : M unit) :
  bind (emit a) (fun _ => bind (emit b) (fun _ => bind (emit c) (fun _ =>
    bind tb (fun _ => bind fb (fun _ => fin))))) =
  match outcome tb, outcome fb with
  | Raise e, _ => (a :: b :: c :: trace tb, Raise e)
  | Ok _, Raise e => (a :: b :: c :: trace tb ++ trace fb, Raise e)
  | Ok _, Ok _ =>
      (a :: b :: c :: trace tb ++ trace fb ++ trace fin, outcome fin)
  end.
Proof.
  destruct tb as [t1 [[]|e1]], fb as [t2 [[]|e2]], fin as [t3 r3];
    reflexivity.
Qed.

Lemma not_drawing_not_In (t : list event) (ev : event) :
  Forall (fun ev => is_drawing ev = false) t ->
  is_drawing ev = true -> ~ In ev t.
Proof.
  intros Hall Hev Hin. rewrite Forall_forall in Hall.
  apply Hall in Hin. congruence.
Qed.

Lemma open_file_draws_nothing (w : Script.world) (path : string) :
  Forall (fun ev => is_drawing ev = false)
         (trace (Script.open_file w path)).
Proof. unfold Script.open_file, Script.run. trace_all; reflexivity. Qed.

End Shape.

Section Pipeline1.
Import Py Script Series Graph1.
Local Open Scope string_scope.
Local Open Scope list_scope.

Variable w : world.

Lemma graph1_main_load_raises (e : exn) :
  outcome (load w DATA_FILE X_COL Y1_COL Y2_COL) = Raise e ->
  main w = (trace (font_setup w), Raise e).
Proof.
  intros H. unfold main.
  rewrite (bind_Ok _ _ tt (font_setup_outcome w)).
  rewrite (bind_Raise _ _ e H), load_trace. cbn.
  now rewrite app_nil_r.
Qed.

Lemma graph1_main_filter_raises (d : series * series * series)
      (e : exn) :
  outcome (load w DATA_FILE X_COL Y1_COL Y2_COL) = Ok d ->
  filter d = ([], Raise e) ->
  main w = (trace (font_setup w), Raise e).
Proof.
  intros H Hf. unfold main.
  rewrite (bind_Ok _ _ tt (font_setup_outcome w)).
  rewrite (bind_Ok _ _ d H), load_trace, Hf. cbn.
  now rewrite app_nil_r.
Qed.

Lemma graph1_main_filtered (d : series * series * series)
      (x y1 y2 : series) :
  outcome (load w DATA_FILE X_COL Y1_COL Y2_COL) = Ok d ->
  filter d = ([], Ok (x, y1, y2)) ->
  main w = (trace (font_setup w) ++ trace (render w x y1 y2),
            outcome (render w x y1 y2)).
Proof.
  intros H Hf. unfold main.
  rewrite (bind_Ok _ _ tt (font_setup_outcome w)).
  rewrite (bind_Ok _ _ d H), load_trace, Hf.
  cbn [bind trace outcome fst snd app].
  now destruct (render w x y1 y2).
Qed.

(** A sheet without data rows: the mask line raises before anything is
    drawn. *)
Lemma graph1_main_no_rows (d : series * series * series) :
  outcome (load w DATA_FILE X_COL Y1_COL Y2_COL) = Ok d ->
  fst (fst d) = [] ->
  main w = (trace (font_setup w), Raise isnan_refused).
Proof.
  intros H Hd.
  destruct (graph1_filter_loaded w d H) as [[_ Hf]|[Hn _]];
    [|contradiction].
  now apply (graph1_main_filter_raises d).
Qed.

(** A sheet with a data row: the run goes on with the cleaned columns. *)
Lemma graph1_main_loaded (d : series * series * series)
      (x y1 y2 : series) :
  outcome (load w DATA_FILE X_COL Y1_COL Y2_COL) = Ok d ->
  fst (fst d) <> [] ->
  clean d = (x, y1, y2) ->
  main w = (trace (font_setup w) ++ trace (render w x y1 y2),
            outcome (render w x y1 y2)).
Proof.
  intros H Hd Hc.
  destruct (graph1_filter_loaded w d H) as [[He _]|[_ Hf]];
    [contradiction|].
  rewrite Hc in Hf. now apply (graph1_main_filtered d).
Qed.

(** What a returning mask line has computed. *)
Lemma graph1_filter_Ok_inv (d : series * series * series)
      (x y1 y2 : series) :
  outcome (load w DATA_FILE X_COL Y1_COL Y2_COL) = Ok d ->
  outcome (filter d) = Ok (x, y1, y2) ->
  fst (fst d) <> [] /\ clean d = (x, y1, y2).
Proof.
  intros H Hf.
  destruct (graph1_filter_loaded w d H) as [[_ E]|[Hn E]];
    rewrite E in Hf; cbn in Hf; [discriminate|].
  injection Hf as Hf. now split.
Qed.

Lemma graph1_theory_block_empty :
  theory_block [] =
    ([], Raise (mk_exn ValueError "max() arg is an empty sequence")).
Proof. reflexivity. Qed.

Lemma graph1_theory_block_nonempty (x : series) :
  x <> [] ->
  theory_block x = ([Plot data1 theory; Plot data2 theory], Ok tt).
Proof. destruct x; [congruence | reflexivity]. Qed.

Lemma graph1_render_eq (x y1 y2 : series) :
  render w x y1 y2 =
    match outcome (theory_block x), outcome (fit_block w x y1 y2) with
    | Raise e, _ =>
        (Subplots :: Scatter data1 x y1 :: Scatter data2 x y2
           :: trace (theory_block x), Raise e)
    | Ok _, Raise e =>
        (Subplots :: Scatter data1 x y1 :: Scatter data2 x y2
           :: trace (theory_block x) ++ trace (fit_block w x y1 y2),
         Raise e)
    | Ok _, Ok _ =>
        (Subplots :: Scatter data1 x y1 :: Scatter data2 x y2
           :: trace (theory_block x) ++ trace (fit_block w x y1 y2)
           ++ trace (finish w AXIS_LOG_x AXIS_LOG_y SHOW_GRID),
         outcome (finish w AXIS_LOG_x AXIS_LOG_y SHOW_GRID))
    end.
Proof. unfold render. apply render_shape. Qed.

Lemma graph1_fit_block_first_raises (x y1 y2 : series) (e : exn) :
  np_polyfit w x y1 2 = Raise e -> is_Exception e = true ->
  fit_block w x y1 y2 =
    ([Print ("近似曲線の計算でエラーが発生しました: " ++ msg e)%string;
      Print "近似曲線の表示をスキップします"], Ok tt).
Proof.
  intros H He. unfold fit_block; cbn. rewrite H; cbn. now rewrite He.
Qed.

Lemma graph1_fit_block_second_raises (x y1 y2 : series) (e : exn) :
  x <> [] ->
  raised (np_polyfit w x y1 2) = false ->
  np_polyfit w x y2 2 = Raise e -> is_Exception e = true ->
  fit_block w x y1 y2 =
    ([Plot data1 fit;
      Print ("近似曲線の計算でエラーが発生しました: " ++ msg e)%string;
      Print "近似曲線の表示をスキップします"], Ok tt).
Proof.
  intros Hx H1 H2 He. unfold fit_block; cbn.
  destruct (np_polyfit w x y1 2); [|discriminate]; cbn.
  destruct x; [congruence|]; cbn. rewrite H2; cbn. now rewrite He.
Qed.

Lemma graph1_fit_block_never_saves (x y1 y2 : series) :
  Forall (fun ev => forall p, ev <> Savefig p)
         (trace (fit_block w x y1 y2)).
Proof.
  unfold fit_block. cbv delta [PLOT_FIT] iota.
  trace_all; intros p; discriminate.
Qed.

End Pipeline1.

Section Pipeline2.
Import Py Script Series Graph2.
Local Open Scope string_scope.
Local Open Scope list_scope.

Variable w : world.

Lemma graph2_main_load_raises (e : exn) :
  outcome (load w DATA_FILE X_COL Y1_COL Y2_COL) = Raise e ->
  main w = (trace (font_setup w), Raise e).
Proof.
  intros H. unfold main.
  rewrite (bind_Ok _ _ tt (font_setup_outcome w)).
  rewrite (bind_Raise _ _ e H), load_trace. cbn.
  now rewrite app_nil_r.
Qed.

Lemma graph2_main_filter_raises (d : series * series * series)
      (e : exn) :
  outcome (load w DATA_FILE X_COL Y1_COL Y2_COL) = Ok d ->
  filter d = ([], Raise e) ->
  main w = (trace (font_setup w), Raise e).
Proof.
  intros H Hf. unfold main.
  rewrite (bind_Ok _ _ tt (font_setup_outcome w)).
  rewrite (bind_Ok _ _ d H), load_trace, Hf. cbn.
  now rewrite app_nil_r.
Qed.

Lemma graph2_main_filtered (d : series * series * series)
      (x y1 y2 : series) :
  outcome (load w DATA_FILE X_COL Y1_COL Y2_COL) = Ok d ->
  filter d = ([], Ok (x, y1, y2)) ->
  main w = (trace (font_setup w) ++ trace (render w x y1 y2),
            outcome (render w x y1 y2)).
Proof.
  intros H Hf. unfold main.
  rewrite (bind_Ok _ _ tt (font_setup_outcome w)).
  rewrite (bind_Ok _ _ d H), load_trace, Hf.
  cbn [bind trace outcome fst snd app].
  now destruct (render w x y1 y2).
Qed.

(** A sheet without data rows: the mask line raises before anything is
    drawn. *)
Lemma graph2_main_no_rows (d : series * series * series) :
  outcome (load w DATA_FILE X_COL Y1_COL Y2_COL) = Ok d ->
  fst (fst d) = [] ->
  main w = (trace (font_setup w), Raise isnan_refused).
Proof.
  intros H Hd.
  destruct (graph2_filter_loaded w d H) as [[_ Hf]|[Hn _]];
    [|contradiction].
  now apply (graph2_main_filter_raises d).
Qed.

(** A sheet with a data row: the run goes on with the cleaned columns. *)
Lemma graph2_main_loaded (d : series * series * series)
      (x y1 y2 : series) :
  outcome (load w DATA_FILE X_COL Y1_COL Y2_COL) = Ok d ->
  fst (fst d) <> [] ->
  clean d = (x, y1, y2) ->
  main w = (trace (font_setup w) ++ trace (render w x y1 y2),
            outcome (render w x y1 y2)).
Proof.
  intros H Hd Hc.
  destruct (graph2_filter_loaded w d H) as [[He _]|[_ Hf]];
    [contradiction|].
  rewrite Hc in Hf. now apply (graph2_main_filtered d).
Qed.

(** What a returning mask line has computed. *)
Lemma graph2_filter_Ok_inv (d : series * series * series)
      (x y1 y2 : series) :
  outcome (load w DATA_FILE X_COL Y1_COL Y2_COL) = Ok d ->
  outcome (filter d) = Ok (x, y1, y2) ->
  fst (fst d) <> [] /\ clean d = (x, y1, y2).
Proof.
  intros H Hf.
  destruct (graph2_filter_loaded w d H) as [[_ E]|[Hn E]];
    rewrite E in Hf; cbn in Hf; [discriminate|].
  injection Hf as Hf. now split.
Qed.

Lemma graph2_theory_block_eq (x : series) :
  theory_block x = ([Plot data1 theory; Plot data2 theory], Ok tt).
Proof. reflexivity. Qed.

Lemma graph2_render_eq (x y1 y2 : series) :
  render w x y1 y2 =
    match outcome (fit_block w x y1 y2) with
    | Raise e =>
        (Subplots :: Scatter data1 x y1 :: Scatter data2 x y2
           :: Plot data1 theory :: Plot data2 theory
           :: trace (fit_block w x y1 y2),
         Raise e)
    | Ok _ =>
        (Subplots :: Scatter data1 x y1 :: Scatter data2 x y2
           :: Plot data1 theory :: Plot data2 theory
           :: trace (fit_block w x y1 y2)
           ++ trace (finish w AXIS_LOG_x AXIS_LOG_y SHOW_GRID),
         outcome (finish w AXIS_LOG_x AXIS_LOG_y SHOW_GRID))
    end.
Proof.
  unfold render. rewrite render_shape, graph2_theory_block_eq. cbn.
  destruct (outcome (fit_block w x y1 y2)); reflexivity.
Qed.

Lemma graph2_fit_block_first_raises (x y1 y2 : series) (e : exn) :
  loglog_polyfit w x y1 = Raise e -> is_Exception e = true ->
  fit_block w x y1 y2 =
    ([Log10 x; Log10 y1;
      Print ("近似直線の計算でエラーが発生しました: " ++ msg e)%string;
      Print "近似直線の表示をスキップします"], Ok tt).
Proof.
  unfold loglog_polyfit. intros H He.
  unfold fit_block, fit_one, log10; cbn. rewrite H; cbn. now rewrite He.
Qed.

Lemma graph2_fit_block_second_raises (x y1 y2 : series) (e : exn)
      (slope1 intercept1 : float) :
  loglog_polyfit w x y1 = Ok [slope1; intercept1] ->
  loglog_polyfit w x y2 = Raise e -> is_Exception e = true ->
  fit_block w x y1 y2 =
    ([Log10 x; Log10 y1; Log10 x; Plot data1 fit;
      Log10 x; Log10 y2;
      Print ("近似直線の計算でエラーが発生しました: " ++ msg e)%string;
      Print "近似直線の表示をスキップします"], Ok tt).
Proof.
  unfold loglog_polyfit. intros H1 H2 He.
  unfold fit_block, fit_one, log10; cbn. rewrite H1; cbn.
  rewrite H2; cbn. now rewrite He.
Qed.

Lemma graph2_fit_block_never_saves (x y1 y2 : series) :
  Forall (fun ev => forall p, ev <> Savefig p)
         (trace (fit_block w x y1 y2)).
Proof.
  unfold fit_block, fit_one, log10. cbv delta [PLOT_FIT] iota.
  trace_all; intros p; discriminate.
Qed.

(** The only arguments of [np.log10] are the cleaned columns. *)
Lemma graph2_fit_block_log10_args (x y1 y2 : series) :
  Forall (fun ev => forall arg, ev = Log10 arg ->
                      arg = x \/ arg = y1 \/ arg = y2)
         (trace (fit_block w x y1 y2)).
Proof.
  unfold fit_block, fit_one, log10. cbv delta [PLOT_FIT] iota.
  trace_all; intros arg H; try discriminate; injection H as <-; auto.
Qed.

End Pipeline2.

(** * The shape of a run *)

Section RunShape.
Import Py Script Series Trace.
Local Open Scope string_scope.
Local Open Scope list_scope.

(** A run either stops in the load or in the mask line, having done only
    the font set-up, or renders the cleaned columns of a sheet that has a
    data row. *)
Lemma graph1_run_cases (w : world) :
  (exists e, Graph1.main w = (trace (font_setup w), Raise e)) \/
  (exists d x y1 y2,
      outcome (load w Graph1.DATA_FILE Graph1.X_COL Graph1.Y1_COL
                    Graph1.Y2_COL) = Ok d /\
      fst (fst d) <> [] /\ Graph1.clean d = (x, y1, y2) /\
      Graph1.main w =
        (trace (font_setup w) ++ trace (Graph1.render w x y1 y2),
         outcome (Graph1.render w x y1 y2))).
Proof.
  destruct (outcome (load w Graph1.DATA_FILE Graph1.X_COL Graph1.Y1_COL
                          Graph1.Y2_COL)) as [d|e] eqn:Hl.
  - assert (Hd : fst (fst d) = [] \/ fst (fst d) <> [])
      by (destruct (fst (fst d)); [now left | right; discriminate]).
    destruct Hd as [Hd|Hd].
    + left. eexists. now apply (graph1_main_no_rows w d).
    + right. destruct (Graph1.clean d) as [[x y1] y2] eqn:Hc.
      exists d, x, y1, y2. repeat split; try assumption.
      now apply (graph1_main_loaded w d).
  - left. exists e. now apply graph1_main_load_raises.
Qed.

Lemma graph2_run_cases (w : world) :
  (exists e, Graph2.main w = (trace (font_setup w), Raise e)) \/
  (exists d x y1 y2,
      outcome (load w Graph2.DATA_FILE Graph2.X_COL Graph2.Y1_COL
                    Graph2.Y2_COL) = Ok d /\
      fst (fst d) <> [] /\ Graph2.clean d = (x, y1, y2) /\
      Graph2.main w =
        (trace (font_setup w) ++ trace (Graph2.render w x y1 y2),
         outcome (Graph2.render w x y1 y2))).
Proof.
  destruct (outcome (load w Graph2.DATA_FILE Graph2.X_COL Graph2.Y1_COL
                          Graph2.Y2_COL)) as [d|e] eqn:Hl.
  - assert (Hd : fst (fst d) = [] \/ fst (fst d) <> [])
      by (destruct (fst (fst d)); [now left | right; discriminate]).
    destruct Hd as [Hd|Hd].
    + left. eexists. now apply (graph2_main_no_rows w d).
    + right. destruct (Graph2.clean d) as [[x y1] y2] eqn:Hc.
      exists d, x, y1, y2. repeat split; try assumption.
      now apply (graph2_main_loaded w d).
  - left. exists e. now apply graph2_main_load_raises.
Qed.

Lemma before_save_not_savefig (t : list event) :
  Forall before_save t -> Forall (fun ev => is_savefig ev = false) t.
Proof. apply Forall_impl. now intros ev [H _]. Qed.

Lemma after_save_not_savefig (path : string) (t : list event) :
  Forall (after_save path) t -> Forall (fun ev => is_savefig ev = false) t.
Proof.
  apply Forall_impl. intros ev [H _]. now destruct ev.
Qed.

(** A trace with a single [savefig] splits around it in one way only. *)
Lemma split_at_savefig (A B pre post : list event) (p0 p : string) :
  Forall (fun ev => is_savefig ev = false) A ->
  Forall (fun ev => is_savefig ev = false) B ->
  A ++ Savefig p0 :: B = pre ++ Savefig p :: post ->
  pre = A /\ p = p0 /\ post = B.
Proof.
  intros HA HB. revert pre.
  induction A as [|a A IH]; intros pre Heq.
  - destruct pre as [|ev pre]; cbn in Heq.
    + injection Heq as -> ->. auto.
    + injection Heq as <- ->. exfalso.
      apply Forall_app in HB as [_ HB]. inversion HB as [|? ? Hp _].
      discriminate.
  - destruct pre as [|ev pre]; cbn in Heq.
    + injection Heq as -> _. inversion HA as [|? ? Hp _]. discriminate.
    + injection Heq as <- Heq. inversion HA as [|? ? _ HA']; subst.
      destruct (IH HA' pre Heq) as (-> & -> & ->). auto.
Qed.

Lemma no_savefig_no_split (A pre post : list event) (p : string) :
  Forall (fun ev => is_savefig ev = false) A ->
  A <> pre ++ Savefig p :: post.
Proof.
  intros HA ->. apply Forall_app in HA as [_ HA].
  inversion HA as [|? ? Hp _]. discriminate.
Qed.

Lemma font_setup_before_save (w : world) :
  Forall before_save (trace (font_setup w)).
Proof. unfold font_setup. trace_all; split; reflexivity. Qed.

Lemma open_file_after_save (w : world) (path : string) :
  Forall (after_save path) (trace (open_file w path)).
Proof. unfold open_file, run. trace_all; split; reflexivity. Qed.

Lemma graph1_blocks_before_save (w : world) (x y1 y2 : series) :
  Forall before_save (trace (Graph1.theory_block x)) /\
  Forall before_save (trace (Graph1.fit_block w x y1 y2)).
Proof.
  split.
  - unfold Graph1.theory_block. cbv delta [Graph1.PLOT_THEORY] iota.
    trace_all; split; reflexivity.
  - unfold Graph1.fit_block. cbv delta [Graph1.PLOT_FIT] iota.
    trace_all; split; reflexivity.
Qed.

Lemma graph2_blocks_before_save (w : world) (x y1 y2 : series) :
  Forall before_save (trace (Graph2.fit_block w x y1 y2)).
Proof.
  unfold Graph2.fit_block, Graph2.fit_one, Graph2.log10.
  cbv delta [Graph2.PLOT_FIT] iota.
  trace_all; split; reflexivity.
Qed.

Lemma ends_at_save_stop (path : string) (opening A : list event)
      (e : exn) :
  Forall before_save A -> ends_at_save path opening (A, Raise e).
Proof.
  intros HA. exists A. split; [assumption|].
  left. split; [reflexivity | now exists e].
Qed.

Lemma ends_at_save_after (path : string) (opening A : list event)
      (m : M unit) :
  Forall before_save A -> ends_at_save path opening m ->
  ends_at_save path opening (A ++ trace m, outcome m).
Proof.
  intros HA (B & HB & [[Ht He]|[Ht Ho]]); exists (A ++ B);
    (split; [apply Forall_app; now split|]); cbn [trace outcome fst snd].
  - left. now rewrite Ht.
  - right. now rewrite Ht, app_assoc.
Qed.

Lemma finish_ends_at_save (w : world) (xlog ylog grid : bool) :
  ends_at_save (output_path w) (trace (open_file w (output_path w)))
               (finish w xlog ylog grid).
Proof.
  destruct (finish_cases w xlog ylog grid)
    as [(e & ->)|[(e & ->)| ->]].
  - apply ends_at_save_stop. constructor.
  - apply ends_at_save_stop. repeat constructor.
  - exists [Axes xlog ylog grid]. split; [repeat constructor|].
    right. now split.
Qed.

Lemma graph1_render_ends_at_save (w : world) (x y1 y2 : series) :
  ends_at_save (output_path w) (trace (open_file w (output_path w)))
               (Graph1.render w x y1 y2).
Proof.
  destruct (graph1_blocks_before_save w x y1 y2) as [Hth Hfit].
  assert (H3 : Forall before_save
                 [Subplots; Scatter data1 x y1; Scatter data2 x y2])
    by (repeat constructor).
  rewrite graph1_render_eq.
  destruct (outcome (Graph1.theory_block x)) as [[]|e1];
    [destruct (outcome (Graph1.fit_block w x y1 y2)) as [[]|e2]|].
  - change (Subplots :: Scatter data1 x y1 :: Scatter data2 x y2
              :: trace (Graph1.theory_block x)
              ++ trace (Graph1.fit_block w x y1 y2)
              ++ trace (finish w Graph1.AXIS_LOG_x Graph1.AXIS_LOG_y
                               Graph1.SHOW_GRID))
      with ([Subplots; Scatter data1 x y1; Scatter data2 x y2]
              ++ trace (Graph1.theory_block x)
              ++ trace (Graph1.fit_block w x y1 y2)
              ++ trace (finish w Graph1.AXIS_LOG_x Graph1.AXIS_LOG_y
                               Graph1.SHOW_GRID)).
    rewrite !app_assoc.
    apply ends_at_save_after; [|apply finish_ends_at_save].
    repeat (apply Forall_app; split); assumption.
  - apply ends_at_save_stop.
    change (Forall before_save
              ([Subplots; Scatter data1 x y1; Scatter data2 x y2]
                 ++ trace (Graph1.theory_block x)
                 ++ trace (Graph1.fit_block w x y1 y2))).
    repeat (apply Forall_app; split); assumption.
  - apply ends_at_save_stop.
    change (Forall before_save
              ([Subplots; Scatter data1 x y1; Scatter data2 x y2]
                 ++ trace (Graph1.theory_block x))).
    repeat (apply Forall_app; split); assumption.
Qed.

Lemma graph2_render_ends_at_save (w : world) (x y1 y2 : series) :
  ends_at_save (output_path w) (trace (open_file w (output_path w)))
               (Graph2.render w x y1 y2).
Proof.
  pose proof (graph2_blocks_before_save w x y1 y2) as Hfit.
  assert (H5 : Forall before_save
                 [Subplots; Scatter data1 x y1; Scatter data2 x y2;
                  Plot data1 theory; Plot data2 theory])
    by (repeat constructor).
  rewrite graph2_render_eq.
  destruct (outcome (Graph2.fit_block w x y1 y2)) as [[]|e2].
  - change (Subplots :: Scatter data1 x y1 :: Scatter data2 x y2
              :: Plot data1 theory :: Plot data2 theory
              :: trace (Graph2.fit_block w x y1 y2)
              ++ trace (finish w Graph2.AXIS_LOG_x Graph2.AXIS_LOG_y
                               Graph2.SHOW_GRID))
      with ([Subplots; Scatter data1 x y1; Scatter data2 x y2;
             Plot data1 theory; Plot data2 theory]
              ++ trace (Graph2.fit_block w x y1 y2)
              ++ trace (finish w Graph2.AXIS_LOG_x Graph2.AXIS_LOG_y
                               Graph2.SHOW_GRID)).
    rewrite !app_assoc.
    apply ends_at_save_after; [|apply finish_ends_at_save].
    repeat (apply Forall_app; split); assumption.
  - apply ends_at_save_stop.
    change (Forall before_save
              ([Subplots; Scatter data1 x y1; Scatter data2 x y2;
                Plot data1 theory; Plot data2 theory]
                 ++ trace (Graph2.fit_block w x y1 y2))).
    repeat (apply Forall_app; split); assumption.
Qed.

(** Every run stops before saving, or saves once and goes through the
    open step. *)
Lemma graph1_main_ends_at_save (w : world) :
  ends_at_save (output_path w) (trace (open_file w (output_path w)))
               (Graph1.main w).
Proof.
  pose proof (font_setup_before_save w) as Hfont.
  destruct (graph1_run_cases w)
    as [(e & ->)|(d & x & y1 & y2 & _ & _ & _ & ->)].
  - now apply ends_at_save_stop.
  - apply ends_at_save_after; [assumption|].
    apply graph1_render_ends_at_save.
Qed.

Lemma graph2_main_ends_at_save (w : world) :
  ends_at_save (output_path w) (trace (open_file w (output_path w)))
               (Graph2.main w).
Proof.
  pose proof (font_setup_before_save w) as Hfont.
  destruct (graph2_run_cases w)
    as [(e & ->)|(d & x & y1 & y2 & _ & _ & _ & ->)].
  - now apply ends_at_save_stop.
  - apply ends_at_save_after; [assumption|].
    apply graph2_render_ends_at_save.
Qed.

(** A run that ends normally has saved and gone through the open step. *)
Lemma ends_at_save_completed (path : string) (opening : list event)
      (m : M unit) :
  ends_at_save path opening m -> outcome m = Ok tt ->
  exists A, Forall before_save A
            /\ trace m = A ++ Savefig path :: opening.
Proof.
  intros (A & HA & [[_ (e & He)]|[Ht _]]) Ho.
  - rewrite He in Ho. discriminate.
  - now exists A.
Qed.

(** A run that has saved ends normally. *)
Lemma ends_at_save_saved (path : string) (opening : list event)
      (m : M unit) (p : string) :
  ends_at_save path opening m -> In (Savefig p) (trace m) ->
  outcome m = Ok tt.
Proof.
  intros (A & HA & [[Ht _]|[_ Ho]]) Hin; [|assumption].
  exfalso. rewrite Ht in Hin.
  apply before_save_not_savefig in HA. rewrite Forall_forall in HA.
  specialize (HA _ Hin). discriminate.
Qed.

End RunShape.

(** * Error handling of a whole run *)

Section Runs.
Import Py Script Series Trace.
Local Open Scope string_scope.
Local Open Scope list_scope.

Lemma never_saves_not_In (t : list event) (p : string) :
  Forall (fun ev => forall p, ev <> Savefig p) t -> ~ In (Savefig p) t.
Proof.
  intros Hall Hin. rewrite Forall_forall in Hall.
  now apply (Hall _ Hin p).
Qed.

Lemma font_setup_never_saves (w : world) (p : string) :
  ~ In (Savefig p) (trace (font_setup w)).
Proof.
  apply not_drawing_not_In;
    [apply font_setup_draws_nothing | reflexivity].
Qed.

(** When [open] raises and the shell call of [start] returns, with
    whatever exit status, the open step is over. *)
Lemma open_file_stops_after_start (w : world) (path : string) (code : Z) :
  raised (subprocess_run w ["open"; path] false) = true ->
  subprocess_run w ["start"; path] true = Ok code ->
  open_file w path =
    ([Subprocess ["open"; path] false; Subprocess ["start"; path] true],
     Ok tt).
Proof.
  intros H1 H2.
  rewrite (M_eta (open_file w path)), open_file_outcome, open_file_trace.
  now rewrite H1, H2.
Qed.

(** C3: the open step does not reach its third opener on a host where
    [open] raises and the shell call of [start] returns.  Handing
    [start] to the shell never raises for a missing command: the shell
    returns exit status 127, the [except:] branch is not taken,
    [xdg-open] is not run and nothing is printed.  A run that ends
    normally on such a host ends with [savefig], [open] and [start]. *)
Theorem open_step_stops_when_start_returns :
  (forall w path code,
      raised (subprocess_run w ["open"; path] false) = true ->
      subprocess_run w ["start"; path] true = Ok code ->
      open_file w path =
        ([Subprocess ["open"; path] false;
          Subprocess ["start"; path] true], Ok tt)) /\
  (forall w code,
      raised (subprocess_run w ["open"; output_path w] false) = true ->
      subprocess_run w ["start"; output_path w] true = Ok code ->
      outcome (Graph1.main w) = Ok tt ->
      exists pre,
        trace (Graph1.main w) =
          pre ++ [Savefig (output_path w);
                  Subprocess ["open"; output_path w] false;
                  Subprocess ["start"; output_path w] true]) /\
  (forall w code,
      raised (subprocess_run w ["open"; output_path w] false) = true ->
      subprocess_run w ["start"; output_path w] true = Ok code ->
      outcome (Graph2.main w) = Ok tt ->
      exists pre,
        trace (Graph2.main w) =
          pre ++ [Savefig (output_path w);
                  Subprocess ["open"; output_path w] false;
                  Subprocess ["start"; output_path w] true]).
Proof.
  split; [|split].
  - apply open_file_stops_after_start.
  - intros w code H1 H2 Ho.
    destruct (ends_at_save_completed _ _ _ (graph1_main_ends_at_save w) Ho)
      as (A & _ & Ht).
    exists A. rewrite Ht.
    now rewrite (open_file_stops_after_start w _ code H1 H2).
  - intros w code H1 H2 Ho.
    destruct (ends_at_save_completed _ _ _ (graph2_main_ends_at_save w) Ho)
      as (A & _ & Ht).
    exists A. rewrite Ht.
    now rewrite (open_file_stops_after_start w _ code H1 H2).
Qed.

Lemma open_step_stops_when_start_returns_witness :
  let w := Example.around Example.sheet1 Example.fit_returns
             Example.linux_opener in
  open_file w "/home/user/graph.png" =
    ([Subprocess ["open"; "/home/user/graph.png"] false;
      Subprocess ["start"; "/home/user/graph.png"] true], Ok tt) /\
  exists pre,
    trace (Graph1.main w) =
      pre ++ [Savefig "/home/user/graph.png";
              Subprocess ["open"; "/home/user/graph.png"] false;
              Subprocess ["start"; "/home/user/graph.png"] true].
Proof.
  cbv zeta. split.
  - apply (proj1 open_step_stops_when_start_returns
             (Example.around Example.sheet1 Example.fit_returns
                Example.linux_opener) "/home/user/graph.png" 127%Z);
      reflexivity.
  - apply (proj1 (proj2 open_step_stops_when_start_returns)
             (Example.around Example.sheet1 Example.fit_returns
                Example.linux_opener) 127%Z);
      reflexivity.
Defined.

Ltac absent :=
  let H := fresh "H" in
  intros H; exfalso;
  repeat (rewrite in_app_iff in H || cbn [In trace fst app] in H);
  repeat match type of H with
         | _ \/ _ => destruct H as [H|H]
         end;
  first
    [ discriminate H
    | contradiction
    | revert H; apply not_drawing_not_In;
      [apply font_setup_draws_nothing | reflexivity]
    | revert H; apply not_drawing_not_In;
      [apply open_file_draws_nothing | reflexivity] ].

Lemma finish_plots_nothing (w : world) (xlog ylog grid : bool) :
  Forall (fun ev => forall k s, ev <> Plot k s)
         (trace (finish w xlog ylog grid)).
Proof.
  unfold finish, call, open_file, run. trace_all; intros k s; discriminate.
Qed.

Lemma font_setup_plots_nothing (w : world) :
  Forall (fun ev => forall k s, ev <> Plot k s) (trace (font_setup w)).
Proof. unfold font_setup. trace_all; intros k s; discriminate. Qed.

Lemma plots_nothing_not_In (t : list event) (k : series_key)
      (s : style_key) :
  Forall (fun ev => forall k s, ev <> Plot k s) t -> ~ In (Plot k s) t.
Proof.
  intros Hall Hin. rewrite Forall_forall in Hall.
  now apply (Hall _ Hin k s).
Qed.

Lemma graph1_fit_failure_contained (w : world)
      (d : series * series * series) (x y1 y2 : series) (e : exn) :
  outcome (load w Graph1.DATA_FILE Graph1.X_COL Graph1.Y1_COL
                Graph1.Y2_COL) = Ok d ->
  outcome (Graph1.filter d) = Ok (x, y1, y2) ->
  x <> [] ->
  Graph1.fit_raises w x y1 y2 e ->
  is_Exception e = true ->
  Graph1.main w =
    (trace (font_setup w)
       ++ [Subplots; Scatter data1 x y1; Scatter data2 x y2;
           Plot data1 theory; Plot data2 theory]
       ++ (if raised (np_polyfit w x y1 2) then [] else [Plot data1 fit])
       ++ [Print ("近似曲線の計算でエラーが発生しました: " ++ msg e)%string;
           Print "近似曲線の表示をスキップします"]
       ++ trace (finish w false false true),
     outcome (finish w false false true)).
Proof.
  intros Hl Hf Hx Hfit He.
  destruct (graph1_filter_Ok_inv w d x y1 y2 Hl Hf) as [Hn Hc].
  rewrite (graph1_main_loaded w d x y1 y2 Hl Hn Hc), graph1_render_eq.
  rewrite (graph1_theory_block_nonempty x Hx).
  destruct Hfit as [H1|[H1 H2]].
  - rewrite (graph1_fit_block_first_raises w x y1 y2 e H1 He), H1.
    reflexivity.
  - rewrite (graph1_fit_block_second_raises w x y1 y2 e Hx H1 H2 He), H1.
    reflexivity.
Qed.

Lemma graph2_fit_failure_contained (w : world)
      (d : series * series * series) (x y1 y2 : series) (e : exn) :
  outcome (load w Graph2.DATA_FILE Graph2.X_COL Graph2.Y1_COL
                Graph2.Y2_COL) = Ok d ->
  outcome (Graph2.filter d) = Ok (x, y1, y2) ->
  Graph2.fit_raises w x y1 y2 e ->
  is_Exception e = true ->
  Graph2.main w =
    (trace (font_setup w)
       ++ [Subplots; Scatter data1 x y1; Scatter data2 x y2;
           Plot data1 theory; Plot data2 theory]
       ++ (if raised (Graph2.loglog_polyfit w x y1)
           then [Log10 x; Log10 y1]
           else [Log10 x; Log10 y1; Log10 x; Plot data1 fit;
                 Log10 x; Log10 y2])
       ++ [Print ("近似直線の計算でエラーが発生しました: " ++ msg e)%string;
           Print "近似直線の表示をスキップします"]
       ++ trace (finish w true true false),
     outcome (finish w true true false)).
Proof.
  intros Hl Hf Hfit He.
  destruct (graph2_filter_Ok_inv w d x y1 y2 Hl Hf) as [Hn Hc].
  rewrite (graph2_main_loaded w d x y1 y2 Hl Hn Hc), graph2_render_eq.
  destruct Hfit as [H1|[(s1 & i1 & H1) H2]].
  - rewrite (graph2_fit_block_first_raises w x y1 y2 e H1 He), H1.
    reflexivity.
  - rewrite (graph2_fit_block_second_raises w x y1 y2 e s1 i1 H1 H2 He), H1.
    reflexivity.
Qed.

(** C4 as stated fails: on a sheet of pipeline 2 in which no row passes
    the mask, the fit raises, the exception is caught and the message is
    printed, and the run then ends with the exception of the axis
    statements, before [savefig]. *)
Lemma fit_failure_caught_but_run_aborts :
  outcome (load Example.masked_run Graph2.DATA_FILE Graph2.X_COL
                Graph2.Y1_COL Graph2.Y2_COL)
    = Ok ([10; 100], [-1; 0], [0.5; 0.5])%float /\
  outcome (Graph2.filter ([10; 100], [-1; 0], [0.5; 0.5])%float)
    = Ok ([], [], []) /\
  Graph2.fit_raises Example.masked_run [] [] []
    (mk_exn TypeError "expected non-empty vector for x") /\
  Graph2.main Example.masked_run =
    ([RcFontFamily "Hiragino Sans"; Subplots;
      Scatter data1 [] []; Scatter data2 [] [];
      Plot data1 theory; Plot data2 theory; Log10 []; Log10 [];
      Print "近似直線の計算でエラーが発生しました: expected non-empty vector for x";
      Print "近似直線の表示をスキップします"],
     Raise (mk_exn ValueError "tight_layout")) /\
  ~ In (Savefig (output_path Example.masked_run))
       (trace (Graph2.main Example.masked_run)).
Proof.
  split; [reflexivity|]. split; [reflexivity|].
  split; [left; reflexivity|]. split; [reflexivity|].
  vm_compute. intuition discriminate.
Qed.

(** C4, as the code has it: when a fit computation of the [try] block
    raises an exception [e] (an instance of [Exception]), the exception is
    caught, the two lines of the error message are printed, the curve of
    the fit that raised, like that of any later fit, is not drawn, and the
    script goes on with the axis statements; the run's outcome is then
    that of the unguarded axis statements and [savefig].  When those
    return, the axes are set, the figure is saved under the output path,
    the open step runs and the run ends normally. *)
Theorem fit_failure_is_caught_and_script_goes_on :
  (forall w d x y1 y2 e,
      outcome (load w Graph1.DATA_FILE Graph1.X_COL Graph1.Y1_COL
                    Graph1.Y2_COL) = Ok d ->
      outcome (Graph1.filter d) = Ok (x, y1, y2) ->
      x <> [] ->
      Graph1.fit_raises w x y1 y2 e ->
      is_Exception e = true ->
      Graph1.main w =
        (trace (font_setup w)
           ++ [Subplots; Scatter data1 x y1; Scatter data2 x y2;
               Plot data1 theory; Plot data2 theory]
           ++ (if raised (np_polyfit w x y1 2) then []
               else [Plot data1 fit])
           ++ [Print ("近似曲線の計算でエラーが発生しました: " ++ msg e)%string;
               Print "近似曲線の表示をスキップします"]
           ++ trace (finish w false false true),
         outcome (finish w false false true)) /\
      ~ In (Plot data2 fit) (trace (Graph1.main w)) /\
      (np_polyfit w x y1 2 = Raise e ->
       ~ In (Plot data1 fit) (trace (Graph1.main w))) /\
      (axis_block w = None -> savefig w (output_path w) = None ->
       outcome (Graph1.main w) = Ok tt /\
       trace (finish w false false true) =
         Axes false false true :: Savefig (output_path w)
           :: trace (open_file w (output_path w)))) /\
  (forall w d x y1 y2 e,
      outcome (load w Graph2.DATA_FILE Graph2.X_COL Graph2.Y1_COL
                    Graph2.Y2_COL) = Ok d ->
      outcome (Graph2.filter d) = Ok (x, y1, y2) ->
      Graph2.fit_raises w x y1 y2 e ->
      is_Exception e = true ->
      Graph2.main w =
        (trace (font_setup w)
           ++ [Subplots; Scatter data1 x y1; Scatter data2 x y2;
               Plot data1 theory; Plot data2 theory]
           ++ (if raised (Graph2.loglog_polyfit w x y1)
               then [Log10 x; Log10 y1]
               else [Log10 x; Log10 y1; Log10 x; Plot data1 fit;
                     Log10 x; Log10 y2])
           ++ [Print ("近似直線の計算でエラーが発生しました: " ++ msg e)%string;
               Print "近似直線の表示をスキップします"]
           ++ trace (finish w true true false),
         outcome (finish w true true false)) /\
      ~ In (Plot data2 fit) (trace (Graph2.main w)) /\
      (Graph2.loglog_polyfit w x y1 = Raise e ->
       ~ In (Plot data1 fit) (trace (Graph2.main w))) /\
      (axis_block w = None -> savefig w (output_path w) = None ->
       outcome (Graph2.main w) = Ok tt /\
       trace (finish w true true false) =
         Axes true true false :: Savefig (output_path w)
           :: trace (open_file w (output_path w)))).
Proof.
  split.
  - intros w d x y1 y2 e Hl Hf Hx Hfit He.
    pose proof (graph1_fit_failure_contained w d x y1 y2 e Hl Hf Hx Hfit He)
      as Hm.
    pose proof (plots_nothing_not_In _ data2 fit
                  (font_setup_plots_nothing w)) as Hfont2.
    pose proof (plots_nothing_not_In _ data1 fit
                  (font_setup_plots_nothing w)) as Hfont1.
    pose proof (plots_nothing_not_In _ data2 fit
                  (finish_plots_nothing w false false true)) as Hfin2.
    pose proof (plots_nothing_not_In _ data1 fit
                  (finish_plots_nothing w false false true)) as Hfin1.
    split; [exact Hm|]. rewrite Hm. cbn [trace outcome fst snd].
    split; [|split].
    + intros H. repeat (rewrite in_app_iff in H; cbn [In] in H).
      destruct (raised (np_polyfit w x y1 2)); cbn [In] in H;
        intuition discriminate.
    + intros H1 H. rewrite H1 in H. cbn [raised] in H.
      repeat (rewrite in_app_iff in H; cbn [In] in H).
      intuition discriminate.
    + intros Ha Hs. rewrite (finish_returns w _ _ _ Ha Hs). now split.
  - intros w d x y1 y2 e Hl Hf Hfit He.
    pose proof (graph2_fit_failure_contained w d x y1 y2 e Hl Hf Hfit He)
      as Hm.
    pose proof (plots_nothing_not_In _ data2 fit
                  (font_setup_plots_nothing w)) as Hfont2.
    pose proof (plots_nothing_not_In _ data1 fit
                  (font_setup_plots_nothing w)) as Hfont1.
    pose proof (plots_nothing_not_In _ data2 fit
                  (finish_plots_nothing w true true false)) as Hfin2.
    pose proof (plots_nothing_not_In _ data1 fit
                  (finish_plots_nothing w true true false)) as Hfin1.
    split; [exact Hm|]. rewrite Hm. cbn [trace outcome fst snd].
    split; [|split].
    + intros H. repeat (rewrite in_app_iff in H; cbn [In] in H).
      destruct (raised (Graph2.loglog_polyfit w x y1)); cbn [In] in H;
        intuition discriminate.
    + intros H1 H. rewrite H1 in H. cbn [raised] in H.
      repeat (rewrite in_app_iff in H; cbn [In] in H).
      intuition discriminate.
    + intros Ha Hs. rewrite (finish_returns w _ _ _ Ha Hs). now split.
Qed.

Lemma fit_failure_is_caught_and_script_goes_on_witness :
  let w1 := Example.around Example.sheet1 Example.fit_fails
              Example.opener_returns in
  outcome (Graph1.main w1) = Ok tt /\
  trace (finish w1 false false true) =
    [Axes false false true; Savefig "/home/user/graph.png";
     Subprocess ["open"; "/home/user/graph.png"] false].
Proof.
  cbv zeta.
  destruct (proj1 fit_failure_is_caught_and_script_goes_on
              (Example.around Example.sheet1 Example.fit_fails
                 Example.opener_returns)
              ([0; 1; 2], [25; nan; 28], [25; 26; 29])%float
              [0; 2]%float [25; 28]%float [25; 29]%float
              (mk_exn LinAlgError
                 "SVD did not converge in Linear Least Squares"))
    as (_ & _ & _ & Hdone);
    [reflexivity | reflexivity | discriminate | left; reflexivity
    | reflexivity |].
  apply Hdone; reflexivity.
Defined.

Lemma graph1_missing_column_aborts (w : world) (df : DataFrame) :
  read_excel w (path_join (current_dir w) Graph1.DATA_FILE) = Ok df ->
  index_of Graph1.X_COL (columns df) = None \/
  index_of Graph1.Y1_COL (columns df) = None \/
  index_of Graph1.Y2_COL (columns df) = None ->
  exists col,
    (col = Graph1.X_COL \/ col = Graph1.Y1_COL \/ col = Graph1.Y2_COL) /\
    index_of col (columns df) = None /\
    outcome (Graph1.main w) = Raise (mk_exn KeyError col) /\
    Forall (fun ev => is_drawing ev = false) (trace (Graph1.main w)).
Proof.
  intros Hr Hmiss.
  destruct (load_missing_column w _ _ _ _ df Hr Hmiss)
    as (col & Hcol & Habs & Hload).
  exists col. rewrite (graph1_main_load_raises w _ Hload).
  repeat split; try assumption. apply font_setup_draws_nothing.
Qed.

Lemma graph2_missing_column_aborts (w : world) (df : DataFrame) :
  read_excel w (path_join (current_dir w) Graph2.DATA_FILE) = Ok df ->
  index_of Graph2.X_COL (columns df) = None \/
  index_of Graph2.Y1_COL (columns df) = None \/
  index_of Graph2.Y2_COL (columns df) = None ->
  exists col,
    (col = Graph2.X_COL \/ col = Graph2.Y1_COL \/ col = Graph2.Y2_COL) /\
    index_of col (columns df) = None /\
    outcome (Graph2.main w) = Raise (mk_exn KeyError col) /\
    Forall (fun ev => is_drawing ev = false) (trace (Graph2.main w)).
Proof.
  intros Hr Hmiss.
  destruct (load_missing_column w _ _ _ _ df Hr Hmiss)
    as (col & Hcol & Habs & Hload).
  exists col. rewrite (graph2_main_load_raises w _ Hload).
  repeat split; try assumption. apply font_setup_draws_nothing.
Qed.

(** C8: when the loaded sheet lacks one of the three required columns,
    the run of either pipeline ends with a [KeyError] naming a missing
    required column, and its trace holds no drawing or saving event. *)
Theorem missing_column_aborts_before_rendering :
  (forall w df,
      read_excel w (path_join (current_dir w) Graph1.DATA_FILE) = Ok df ->
      index_of Graph1.X_COL (columns df) = None \/
      index_of Graph1.Y1_COL (columns df) = None \/
      index_of Graph1.Y2_COL (columns df) = None ->
      exists col,
        (col = Graph1.X_COL \/ col = Graph1.Y1_COL
         \/ col = Graph1.Y2_COL) /\
        index_of col (columns df) = None /\
        outcome (Graph1.main w) = Raise (mk_exn KeyError col) /\
        Forall (fun ev => is_drawing ev = false) (trace (Graph1.main w)))
  /\
  (forall w df,
      read_excel w (path_join (current_dir w) Graph2.DATA_FILE) = Ok df ->
      index_of Graph2.X_COL (columns df) = None \/
      index_of Graph2.Y1_COL (columns df) = None \/
      index_of Graph2.Y2_COL (columns df) = None ->
      exists col,
        (col = Graph2.X_COL \/ col = Graph2.Y1_COL
         \/ col = Graph2.Y2_COL) /\
        index_of col (columns df) = None /\
        outcome (Graph2.main w) = Raise (mk_exn KeyError col) /\
        Forall (fun ev => is_drawing ev = false) (trace (Graph2.main w))).
Proof.
  split.
  - apply graph1_missing_column_aborts.
  - apply graph2_missing_column_aborts.
Qed.

Lemma missing_column_aborts_before_rendering_witness :
  let w := Example.around Example.sheet_short Example.fit_returns
             Example.opener_returns in
  exists col,
    (col = Graph1.X_COL \/ col = Graph1.Y1_COL \/ col = Graph1.Y2_COL) /\
    index_of col (columns Example.sheet_short) = None /\
    outcome (Graph1.main w) = Raise (mk_exn KeyError col) /\
    Forall (fun ev => is_drawing ev = false) (trace (Graph1.main w)).
Proof.
  cbv zeta.
  apply (proj1 missing_column_aborts_before_rendering
           (Example.around Example.sheet_short Example.fit_returns
              Example.opener_returns) Example.sheet_short);
    [reflexivity | right; right; reflexivity].
Defined.

Lemma graph1_empty_data_aborts (w : world) (d : series * series * series)
      (y1 y2 : series) :
  outcome (load w Graph1.DATA_FILE Graph1.X_COL Graph1.Y1_COL
                Graph1.Y2_COL) = Ok d ->
  outcome (Graph1.filter d) = Ok ([], y1, y2) ->
  Graph1.main w =
    (trace (font_setup w)
       ++ [Subplots; Scatter data1 [] y1; Scatter data2 [] y2],
     Raise (mk_exn ValueError "max() arg is an empty sequence")).
Proof.
  intros Hl Hf.
  destruct (graph1_filter_Ok_inv w d [] y1 y2 Hl Hf) as [Hn Hc].
  rewrite (graph1_main_loaded w d [] y1 y2 Hl Hn Hc), graph1_render_eq.
  rewrite graph1_theory_block_empty. reflexivity.
Qed.

Lemma graph1_saved_then_nonempty (w : world) (p : string) :
  In (Savefig p) (trace (Graph1.main w)) ->
  exists d x y1 y2,
    outcome (load w Graph1.DATA_FILE Graph1.X_COL Graph1.Y1_COL
                  Graph1.Y2_COL) = Ok d /\
    outcome (Graph1.filter d) = Ok (x, y1, y2) /\ x <> [].
Proof.
  destruct (graph1_run_cases w)
    as [(e & ->)|(d & x & y1 & y2 & Hl & Hn & Hc & E)].
  - absent.
  - assert (Hf : outcome (Graph1.filter d) = Ok (x, y1, y2)).
    { destruct (graph1_filter_loaded w d Hl) as [[He _]|[_ ->]];
        [contradiction|]. cbn. now rewrite Hc. }
    destruct x as [|v x].
    + rewrite (graph1_empty_data_aborts w d y1 y2 Hl Hf). absent.
    + intros _. exists d, (v :: x), y1, y2. repeat split; congruence.
Qed.

(** C9: in pipeline 1, when the mask line returns empty cleaned columns
    (the sheet has rows and every row was filtered out), the run ends
    with the [ValueError] of [max] on an empty sequence, after the two
    scatter calls and before the axis statements and [savefig]; hence a
    run that saves the image had non-empty cleaned data.  (On a sheet
    without data rows no cleaned columns exist: the mask line itself
    raises a [TypeError], before anything is drawn.) *)
Theorem graph1_empty_data_aborts_before_save :
  (forall w d y1 y2,
      outcome (load w Graph1.DATA_FILE Graph1.X_COL Graph1.Y1_COL
                    Graph1.Y2_COL) = Ok d ->
      outcome (Graph1.filter d) = Ok ([], y1, y2) ->
      (exists e, outcome (Graph1.main w) = Raise e /\ cls e = ValueError) /\
      trace (Graph1.main w) =
        trace (font_setup w)
          ++ [Subplots; Scatter data1 [] y1; Scatter data2 [] y2] /\
      forall p, ~ In (Savefig p) (trace (Graph1.main w))) /\
  (forall w p,
      In (Savefig p) (trace (Graph1.main w)) ->
      exists d x y1 y2,
        outcome (load w Graph1.DATA_FILE Graph1.X_COL Graph1.Y1_COL
                      Graph1.Y2_COL) = Ok d /\
        outcome (Graph1.filter d) = Ok (x, y1, y2) /\ x <> []) /\
  (forall w d,
      outcome (load w Graph1.DATA_FILE Graph1.X_COL Graph1.Y1_COL
                    Graph1.Y2_COL) = Ok d ->
      fst (fst d) = [] ->
      (exists e, outcome (Graph1.main w) = Raise e /\ cls e = TypeError) /\
      trace (Graph1.main w) = trace (font_setup w)).
Proof.
  split; [|split].
  - intros w d y1 y2 Hl Hf.
    rewrite (graph1_empty_data_aborts w d y1 y2 Hl Hf).
    split; [eexists; split; reflexivity|]. split; [reflexivity|].
    intros p. absent.
  - apply graph1_saved_then_nonempty.
  - intros w d Hl Hd. rewrite (graph1_main_no_rows w d Hl Hd).
    split; [eexists; split; reflexivity | reflexivity].
Qed.

Lemma graph1_empty_data_aborts_before_save_witness :
  let w := Example.around Example.sheet_blank Example.fit_returns
             Example.opener_returns in
  (exists e, outcome (Graph1.main w) = Raise e /\ cls e = ValueError) /\
  trace (Graph1.main w) =
    trace (font_setup w)
      ++ [Subplots; Scatter data1 [] []; Scatter data2 [] []] /\
  forall p, ~ In (Savefig p) (trace (Graph1.main w)).
Proof.
  cbv zeta.
  apply (proj1 graph1_empty_data_aborts_before_save
           (Example.around Example.sheet_blank Example.fit_returns
              Example.opener_returns)
           ([0], [nan], [25])%float [] []);
    reflexivity.
Defined.

Lemma open_file_no_log10 (w : world) (path : string)
      (Q : list float -> Prop) :
  Forall (fun ev => forall arg, ev = Log10 arg -> Q arg)
         (trace (open_file w path)).
Proof.
  unfold open_file, run. trace_all; intros arg H; discriminate.
Qed.

Lemma finish_no_log10 (w : world) (xlog ylog grid : bool)
      (Q : list float -> Prop) :
  Forall (fun ev => forall arg, ev = Log10 arg -> Q arg)
         (trace (finish w xlog ylog grid)).
Proof.
  unfold finish, call, open_file, run.
  trace_all; intros arg H; discriminate.
Qed.

(** C10: in a run of pipeline 2, every array handed to [np.log10] holds
    strictly positive values only. *)
Theorem graph2_log10_arguments_positive (w : world) (arg : list float) :
  In (Log10 arg) (trace (Graph2.main w)) -> all_positive arg.
Proof.
  destruct (graph2_run_cases w)
    as [(e & E)|(d & x & y1 & y2 & Hl & Hn & Hc & E)]; rewrite E;
    cbn [trace fst].
  - intros Hin.
    pose proof (font_setup_no_log10 w all_positive) as Hf.
    rewrite Forall_forall in Hf. exact (Hf _ Hin arg eq_refl).
  - destruct (load_Ok_inv w _ _ _ _ d Hl)
      as (df & x0 & y10 & y20 & _ & Hx & Hy1 & Hy2 & ->).
    destruct (graph2_clean_columns _ _ _ _ _ _ _ _ _ _ Hx Hy1 Hy2 Hc)
      as (_ & _ & _ & Hpx & Hpy1 & Hpy2).
    assert (Hpos : Forall (fun ev => forall a, ev = Log10 a ->
                                               all_positive a)
                          (trace (font_setup w)
                             ++ trace (Graph2.render w x y1 y2))).
    { rewrite graph2_render_eq.
      apply Forall_app. split; [apply font_setup_no_log10|].
      assert (Hfit : Forall (fun ev => forall a, ev = Log10 a ->
                                                 all_positive a)
                            (trace (Graph2.fit_block w x y1 y2))).
      { eapply Forall_impl; [|apply graph2_fit_block_log10_args].
        cbn beta. intros ev Hev a Ha.
        destruct (Hev a Ha) as [->|[->| ->]]; assumption. }
      destruct (outcome (Graph2.fit_block w x y1 y2)); cbn [trace fst];
        repeat (apply Forall_cons; [intros ? Heq; discriminate Heq|]);
        [|exact Hfit].
      apply Forall_app. split; [exact Hfit|]. apply finish_no_log10. }
    intros Hin. rewrite Forall_forall in Hpos.
    exact (Hpos _ Hin arg eq_refl).
Qed.

Lemma graph2_log10_arguments_positive_witness :
  all_positive [10; 1000]%float.
Proof.
  apply (graph2_log10_arguments_positive
           (Example.around Example.sheet2 Example.fit_returns
              Example.opener_returns)).
  vm_compute. tauto.
Defined.

End Runs.


(** * Further properties of the theory evaluators *)

Section Elementwise.
Local Open Scope R_scope.

Lemma map_nth_singleton (g : R -> R) (x_data : list R) :
  map (fun v => nth 0 (map g [v]) 0) x_data = map g x_data.
Proof. apply map_ext. reflexivity. Qed.

(** X4: both theory evaluators work element by element: the two returned
    arrays have the length of the input, evaluating a sequence gives at
    each position what evaluating that element alone gives, and evaluating
    a concatenation gives the concatenation of the results. *)
Theorem calc_theory_elementwise :
  (forall x_data,
      Graph1.calc_theory x_data =
        (map Graph1.y1_at x_data, map Graph1.y2_at x_data) /\
      List.length (fst (Graph1.calc_theory x_data)) = List.length x_data /\
      List.length (snd (Graph1.calc_theory x_data)) = List.length x_data) /\
  (forall x_data,
      Graph2.calc_theory x_data =
        (map Graph2.y1_at x_data, map Graph2.y2_at x_data) /\
      List.length (fst (Graph2.calc_theory x_data)) = List.length x_data /\
      List.length (snd (Graph2.calc_theory x_data)) = List.length x_data) /\
  (forall a b,
      Graph1.calc_theory (a ++ b) =
        (fst (Graph1.calc_theory a) ++ fst (Graph1.calc_theory b),
         snd (Graph1.calc_theory a) ++ snd (Graph1.calc_theory b)) /\
      Graph2.calc_theory (a ++ b) =
        (fst (Graph2.calc_theory a) ++ fst (Graph2.calc_theory b),
         snd (Graph2.calc_theory a) ++ snd (Graph2.calc_theory b))).
Proof.
  split; [|split].
  - intros x. rewrite graph1_calc_theory_map. cbn [fst snd].
    now rewrite !length_map.
  - intros x. rewrite graph2_calc_theory_map. cbn [fst snd].
    now rewrite !length_map.
  - intros a b.
    rewrite !graph1_calc_theory_map, !graph2_calc_theory_map.
    cbn [fst snd]. now rewrite !map_app.
Qed.

End Elementwise.


(** * Further properties of the validity filter *)

Section MaskShape.
Import Py Script Series.

Lemma gt0_and_not_nan (v : float) :
  Float64.gt0 v && negb (Float64.isnan v) = Float64.gt0 v.
Proof.
  destruct (Float64.gt0 v) eqn:E; [|reflexivity].
  now rewrite (gt0_not_nan v E).
Qed.

Lemma graph2_row_valid_positive {row : Type} (fx fy1 fy2 : row -> float)
      (r : row) :
  RowView.row_valid2 fx fy1 fy2 r =
    Float64.gt0 (fx r) && Float64.gt0 (fy1 r) && Float64.gt0 (fy2 r).
Proof.
  unfold RowView.row_valid2.
  destruct (Float64.gt0 (fx r)) eqn:Ex; [|reflexivity].
  destruct (Float64.gt0 (fy1 r)) eqn:Ey1; [|reflexivity].
  destruct (Float64.gt0 (fy2 r)) eqn:Ey2; [|reflexivity].
  now rewrite (gt0_not_nan _ Ex), (gt0_not_nan _ Ey1), (gt0_not_nan _ Ey2).
Qed.

(** X5: in the mask of pipeline 2 the three NaN tests never change the
    result: the mask is [(x > 0) & (y1 > 0) & (y2 > 0)], whatever the
    columns hold. *)
Theorem graph2_mask_nan_tests_redundant (x_data y1_data y2_data : series) :
  Graph2.mask x_data y1_data y2_data =
    band (band (gt_zero x_data) (gt_zero y1_data)) (gt_zero y2_data).
Proof.
  unfold Graph2.mask, gt_zero, np_isnan, invert.
  revert y1_data y2_data.
  induction x_data as [|v x IH]; intros y1 y2; [reflexivity|].
  destruct y1 as [|v1 y1]; [reflexivity|].
  destruct y2 as [|v2 y2]; [reflexivity|].
  cbn [map band]. rewrite IH. f_equal.
  destruct (Float64.gt0 v) eqn:Ex; [|reflexivity].
  destruct (Float64.gt0 v1) eqn:Ey1; [|reflexivity].
  destruct (Float64.gt0 v2) eqn:Ey2; [|reflexivity].
  now rewrite (gt0_not_nan _ Ex), (gt0_not_nan _ Ey1), (gt0_not_nan _ Ey2).
Qed.

Lemma getitem_cell (df : DataFrame) (col : string) (s : series) :
  getitem df col = Ok s ->
  s = map (Frame.cell df col) (rows df) /\
  forall keep, getitem (Frame.drop_rows keep df) col
               = Ok (map (Frame.cell df col) (filter keep (rows df))).
Proof.
  unfold getitem, Frame.cell, Frame.drop_rows; cbn [columns rows].
  destruct (index_of col (columns df)) as [i|]; [|discriminate].
  intros H. injection H as <-. split; [reflexivity|].
  intros keep. reflexivity.
Qed.

(** X6: cleaning the three columns is removing rows from the sheet: the
    cleaned columns are the three columns of the frame that keeps, in
    their order, exactly the rows passing the mask's test.  So the k-th
    entries of the three cleaned columns always come from one source
    row. *)
Theorem clean_is_row_removal :
  (forall df x0 y10 y20 x y1 y2,
      getitem df Graph1.X_COL = Ok x0 ->
      getitem df Graph1.Y1_COL = Ok y10 ->
      getitem df Graph1.Y2_COL = Ok y20 ->
      Graph1.clean (x0, y10, y20) = (x, y1, y2) ->
      getitem (Frame.drop_rows (Frame.valid1 df) df) Graph1.X_COL = Ok x /\
      getitem (Frame.drop_rows (Frame.valid1 df) df) Graph1.Y1_COL = Ok y1 /\
      getitem (Frame.drop_rows (Frame.valid1 df) df) Graph1.Y2_COL = Ok y2)
  /\
  (forall df x0 y10 y20 x y1 y2,
      getitem df Graph2.X_COL = Ok x0 ->
      getitem df Graph2.Y1_COL = Ok y10 ->
      getitem df Graph2.Y2_COL = Ok y20 ->
      Graph2.clean (x0, y10, y20) = (x, y1, y2) ->
      getitem (Frame.drop_rows (Frame.valid2 df) df) Graph2.X_COL = Ok x /\
      getitem (Frame.drop_rows (Frame.valid2 df) df) Graph2.Y1_COL = Ok y1 /\
      getitem (Frame.drop_rows (Frame.valid2 df) df) Graph2.Y2_COL = Ok y2).
Proof.
  split; intros df x0 y10 y20 x y1 y2 Hx Hy1 Hy2 Hc;
    apply getitem_cell in Hx as [-> Hx];
    apply getitem_cell in Hy1 as [-> Hy1];
    apply getitem_cell in Hy2 as [-> Hy2].
  - rewrite graph1_clean_rows in Hc. injection Hc as <- <- <-.
    repeat split; [apply Hx | apply Hy1 | apply Hy2].
  - rewrite graph2_clean_rows in Hc. injection Hc as <- <- <-.
    repeat split; [apply Hx | apply Hy1 | apply Hy2].
Qed.

Lemma clean_is_row_removal_witness :
  getitem (Frame.drop_rows (Frame.valid1 Example.sheet1) Example.sheet1)
          Graph1.X_COL = Ok [0; 2]%float /\
  getitem (Frame.drop_rows (Frame.valid1 Example.sheet1) Example.sheet1)
          Graph1.Y1_COL = Ok [25; 28]%float /\
  getitem (Frame.drop_rows (Frame.valid1 Example.sheet1) Example.sheet1)
          Graph1.Y2_COL = Ok [25; 29]%float.
Proof.
  apply (proj1 clean_is_row_removal Example.sheet1
           [0; 1; 2]%float [25; nan; 28]%float [25; 26; 29]%float);
    reflexivity.
Defined.

Lemma filter_all (A : Type) (keep : A -> bool) (l : list A) :
  (forall a, In a l -> keep a = true) -> filter keep l = l.
Proof.
  induction l as [|a l IH]; intros H; [reflexivity|].
  cbn [filter]. rewrite (H a (or_introl eq_refl)).
  f_equal. apply IH. intros b Hb. apply H. now right.
Qed.

Lemma filter_twice (A : Type) (keep : A -> bool) (l : list A) :
  filter keep (filter keep l) = filter keep l.
Proof.
  apply filter_all. intros a Ha. now apply filter_In in Ha.
Qed.

Lemma Forall_map_In {row : Type} (f : row -> float) (P : float -> Prop)
      (rs : list row) (r : row) :
  Forall P (map f rs) -> In r rs -> P (f r).
Proof.
  intros H Hr. rewrite Forall_map, Forall_forall in H. now apply H.
Qed.

(** X7: the filter drops nothing it need not drop and is idempotent.  For
    the columns of a sheet, pipeline 1 returns them unchanged exactly when
    they hold no NaN, pipeline 2 exactly when all their values are
    strictly positive; and cleaning cleaned columns changes nothing. *)
Theorem clean_keeps_valid_data_and_is_idempotent :
  (forall df x0 y10 y20,
      getitem df Graph1.X_COL = Ok x0 ->
      getitem df Graph1.Y1_COL = Ok y10 ->
      getitem df Graph1.Y2_COL = Ok y20 ->
      (Graph1.clean (x0, y10, y20) = (x0, y10, y20) <->
       no_nan x0 /\ no_nan y10 /\ no_nan y20) /\
      Graph1.clean (Graph1.clean (x0, y10, y20))
        = Graph1.clean (x0, y10, y20)) /\
  (forall df x0 y10 y20,
      getitem df Graph2.X_COL = Ok x0 ->
      getitem df Graph2.Y1_COL = Ok y10 ->
      getitem df Graph2.Y2_COL = Ok y20 ->
      (Graph2.clean (x0, y10, y20) = (x0, y10, y20) <->
       all_positive x0 /\ all_positive y10 /\ all_positive y20) /\
      Graph2.clean (Graph2.clean (x0, y10, y20))
        = Graph2.clean (x0, y10, y20)).
Proof.
  split; intros df x0 y10 y20 Hx Hy1 Hy2.
  - split; [split|].
    + intros Hc.
      now destruct (graph1_clean_columns _ _ _ _ _ _ _ _ _ _ Hx Hy1 Hy2 Hc)
        as (_ & _ & _ & H).
    + intros (Nx & Ny1 & Ny2).
      apply getitem_rows in Hx as [i ->].
      apply getitem_rows in Hy1 as [j ->].
      apply getitem_rows in Hy2 as [k ->].
      rewrite graph1_clean_rows, filter_all; [reflexivity|].
      intros r Hr. unfold RowView.row_valid1.
      rewrite (Forall_map_In _ _ _ r Nx Hr), (Forall_map_In _ _ _ r Ny1 Hr),
        (Forall_map_In _ _ _ r Ny2 Hr). reflexivity.
    + apply getitem_rows in Hx as [i ->].
      apply getitem_rows in Hy1 as [j ->].
      apply getitem_rows in Hy2 as [k ->].
      now rewrite !graph1_clean_rows, filter_twice.
  - split; [split|].
    + intros Hc.
      now destruct (graph2_clean_columns _ _ _ _ _ _ _ _ _ _ Hx Hy1 Hy2 Hc)
        as (_ & _ & _ & H).
    + intros (Nx & Ny1 & Ny2).
      apply getitem_rows in Hx as [i ->].
      apply getitem_rows in Hy1 as [j ->].
      apply getitem_rows in Hy2 as [k ->].
      rewrite graph2_clean_rows, filter_all; [reflexivity|].
      intros r Hr. rewrite graph2_row_valid_positive.
      rewrite (Forall_map_In _ _ _ r Nx Hr), (Forall_map_In _ _ _ r Ny1 Hr),
        (Forall_map_In _ _ _ r Ny2 Hr). reflexivity.
    + apply getitem_rows in Hx as [i ->].
      apply getitem_rows in Hy1 as [j ->].
      apply getitem_rows in Hy2 as [k ->].
      now rewrite !graph2_clean_rows, filter_twice.
Qed.

Lemma clean_keeps_valid_data_and_is_idempotent_witness :
  Graph2.clean (Graph2.clean ([10; 100; 1000], [1; -1; 0.5],
                              [0.5; 0.5; 1])%float)
  = Graph2.clean ([10; 100; 1000], [1; -1; 0.5], [0.5; 0.5; 1])%float.
Proof.
  apply (proj2 clean_keeps_valid_data_and_is_idempotent Example.sheet2
           [10; 100; 1000]%float [1; -1; 0.5]%float [0.5; 0.5; 1]%float);
    reflexivity.
Defined.

End MaskShape.


(** * Further properties of a whole run *)

Section RaisesOnly.
Import Py Trace.
Variable P : exn -> Prop.

Lemma raises_only_ret {A} (a : A) : raises_only P (ret a).
Proof. intros e H. discriminate. Qed.

Lemma raises_only_emit (ev : event) : raises_only P (emit ev).
Proof. intros e H. discriminate. Qed.

Lemma raises_only_lift {A} (r : result A) :
  (forall e, r = Raise e -> P e) -> raises_only P (lift r).
Proof. intros H e He. now apply H. Qed.

Lemma raises_only_bind {A B} (m : M A) (k : A -> M B) :
  raises_only P m -> (forall a, raises_only P (k a)) ->
  raises_only P (bind m k).
Proof.
  intros Hm Hk e. destruct m as [t [a|e']]; cbn.
  - specialize (Hk a e). destruct (k a) as [t' r]; cbn in *. exact Hk.
  - intros H. injection H as <-. now apply Hm.
Qed.

End RaisesOnly.

Section Completion.
Import Py Script Series Trace.
Local Open Scope string_scope.
Local Open Scope list_scope.

Lemma try_except_Exception_outcome (body : M unit)
      (handler : exn -> M unit) :
  raises_only (fun e => is_Exception e = true) body ->
  (forall e, outcome (handler e) = Ok tt) ->
  outcome (try_except body is_Exception handler) = Ok tt.
Proof.
  intros Hb Hh. destruct body as [t [[]|e]] eqn:E; cbn; [reflexivity|].
  rewrite (Hb e eq_refl). specialize (Hh e).
  destruct (handler e) as [t' r]; cbn in *. exact Hh.
Qed.

Lemma py_max_raises_Exception (xs : list float) (e : exn) :
  py_max xs = Raise e -> is_Exception e = true.
Proof. destruct xs; [|discriminate]. intros H. now injection H as <-. Qed.

Lemma unpack2_raises_Exception (c : list float) (e : exn) :
  unpack2 c = Raise e -> is_Exception e = true.
Proof.
  destruct c as [|a [|b [|d c]]]; try discriminate;
    intros H; now injection H as <-.
Qed.

Lemma graph1_fit_block_outcome (w : world) (x y1 y2 : series) :
  Env.polyfit_raises_Exception w ->
  outcome (Graph1.fit_block w x y1 y2) = Ok tt.
Proof.
  intros Hw. unfold Graph1.fit_block. cbv delta [Graph1.PLOT_FIT] iota.
  apply try_except_Exception_outcome; [|reflexivity].
  repeat first
    [ apply raises_only_bind; [|intros ?]
    | apply raises_only_emit
    | apply raises_only_lift ];
    first [ apply Hw | apply py_max_raises_Exception ].
Qed.

Lemma graph2_fit_block_outcome (w : world) (x y1 y2 : series) :
  Env.polyfit_raises_Exception w ->
  outcome (Graph2.fit_block w x y1 y2) = Ok tt.
Proof.
  intros Hw. unfold Graph2.fit_block. cbv delta [Graph2.PLOT_FIT] iota.
  apply try_except_Exception_outcome; [|reflexivity].
  unfold Graph2.fit_one, Graph2.log10.
  repeat first
    [ apply raises_only_bind; [|intros ?]
    | apply raises_only_emit
    | apply raises_only_ret
    | apply raises_only_lift ];
    first [ apply Hw | apply unpack2_raises_Exception ].
Qed.

(** X8: when [np.polyfit] raises no exception outside [Exception], a run
    ends normally exactly when the sheet loads, the mask line returns (the
    sheet has a data row), for pipeline 1 at least one row passes the mask,
    and the axis statements and [savefig] return.  Pipeline 2 needs no row
    to pass the mask as far as its own statements go; whether the axis
    statements return on the empty columns is the plotting library's
    answer.  A run that ends normally has saved the figure under the
    output path. *)
Theorem run_completes_exactly_when (w : world) :
  Env.polyfit_raises_Exception w ->
  (outcome (Graph1.main w) = Ok tt <->
   (exists d c, outcome (load w Graph1.DATA_FILE Graph1.X_COL Graph1.Y1_COL
                              Graph1.Y2_COL) = Ok d
                /\ outcome (Graph1.filter d) = Ok c
                /\ fst (fst c) <> [])
   /\ axis_block w = None /\ savefig w (output_path w) = None) /\
  (outcome (Graph2.main w) = Ok tt <->
   (exists d c, outcome (load w Graph2.DATA_FILE Graph2.X_COL Graph2.Y1_COL
                              Graph2.Y2_COL) = Ok d
                /\ outcome (Graph2.filter d) = Ok c)
   /\ axis_block w = None /\ savefig w (output_path w) = None) /\
  (outcome (Graph1.main w) = Ok tt ->
   In (Savefig (output_path w)) (trace (Graph1.main w))) /\
  (outcome (Graph2.main w) = Ok tt ->
   In (Savefig (output_path w)) (trace (Graph2.main w))).
Proof.
  intros Hw.
  assert (Hsaved : forall m : M unit,
             ends_at_save (output_path w)
                          (trace (open_file w (output_path w))) m ->
             outcome m = Ok tt -> In (Savefig (output_path w)) (trace m)).
  { intros m Hm Ho.
    destruct (ends_at_save_completed _ _ m Hm Ho) as (A & _ & ->).
    apply in_or_app; right. now left. }
  split; [|split; [|split]].
  - split.
    + intros Ho.
      destruct (graph1_run_cases w)
        as [(e & Hm)|(d & x & y1 & y2 & Hl & Hd & Hc & Hm)];
        rewrite Hm in Ho; cbn [outcome snd] in Ho; [discriminate|].
      rewrite graph1_render_eq in Ho.
      destruct x as [|v x];
        [rewrite graph1_theory_block_empty in Ho; discriminate|].
      rewrite (graph1_theory_block_nonempty (v :: x)) in Ho
        by discriminate.
      cbn [outcome snd] in Ho.
      rewrite (graph1_fit_block_outcome w (v :: x) y1 y2 Hw) in Ho.
      cbn [outcome snd] in Ho.
      split; [|now apply finish_Ok_inv in Ho].
      exists d, (v :: x, y1, y2). split; [assumption|]. split.
      * destruct (graph1_filter_loaded w d Hl) as [[He _]|[_ Hf]];
          [contradiction|].
        rewrite Hf, Hc. reflexivity.
      * discriminate.
    + intros [(d & [[x y1] y2] & Hl & Hf & Hx) [Ha Hs]]. cbn [fst] in Hx.
      destruct (graph1_filter_Ok_inv w d x y1 y2 Hl Hf) as [Hd Hc].
      rewrite (graph1_main_loaded w d x y1 y2 Hl Hd Hc), graph1_render_eq.
      rewrite (graph1_theory_block_nonempty x Hx).
      cbn [outcome snd]. rewrite (graph1_fit_block_outcome w x y1 y2 Hw).
      now rewrite (finish_returns w _ _ _ Ha Hs).
  - split.
    + intros Ho.
      destruct (graph2_run_cases w)
        as [(e & Hm)|(d & x & y1 & y2 & Hl & Hd & Hc & Hm)];
        rewrite Hm in Ho; cbn [outcome snd] in Ho; [discriminate|].
      rewrite graph2_render_eq in Ho.
      rewrite (graph2_fit_block_outcome w x y1 y2 Hw) in Ho.
      cbn [outcome snd] in Ho.
      split; [|now apply finish_Ok_inv in Ho].
      exists d, (x, y1, y2). split; [assumption|].
      destruct (graph2_filter_loaded w d Hl) as [[He _]|[_ Hf]];
        [contradiction|].
      rewrite Hf, Hc. reflexivity.
    + intros [(d & [[x y1] y2] & Hl & Hf) [Ha Hs]].
      destruct (graph2_filter_Ok_inv w d x y1 y2 Hl Hf) as [Hd Hc].
      rewrite (graph2_main_loaded w d x y1 y2 Hl Hd Hc), graph2_render_eq.
      rewrite (graph2_fit_block_outcome w x y1 y2 Hw).
      now rewrite (finish_returns w _ _ _ Ha Hs).
  - apply Hsaved, graph1_main_ends_at_save.
  - apply Hsaved, graph2_main_ends_at_save.
Qed.

End Completion.

Section CompletionWitness.
Import Py Script.

Lemma fit_fails_raises_Exception (df : DataFrame)
      (opener : list string -> bool -> result Z) :
  Env.polyfit_raises_Exception (Example.around df Example.fit_fails opener).
Proof. intros x y deg e H. now injection H as <-. Qed.

Lemma run_completes_exactly_when_witness :
  Env.polyfit_raises_Exception
    (Example.around Example.sheet2 Example.fit_fails Example.no_opener) /\
  outcome (Graph2.main
             (Example.around Example.sheet2 Example.fit_fails
                Example.no_opener)) = Ok tt.
Proof.
  split; [apply fit_fails_raises_Exception|].
  apply (proj2 (proj1 (proj2 (run_completes_exactly_when
                         (Example.around Example.sheet2 Example.fit_fails
                            Example.no_opener)
                         (fit_fails_raises_Exception _ _))))).
  split; [|split; reflexivity].
  eexists. eexists. split; reflexivity.
Defined.

End CompletionWitness.

Section Aborts.
Import Py Script Series Trace.
Local Open Scope string_scope.
Local Open Scope list_scope.

Lemma load_read_excel_raises (w : world) (file cx cy1 cy2 : string)
      (e : exn) :
  read_excel w (path_join (current_dir w) file) = Raise e ->
  outcome (load w file cx cy1 cy2) = Raise e.
Proof. intros H. unfold load. now rewrite H. Qed.

(** X9: when [pd.read_excel] raises, whatever the exception, the run of
    either pipeline ends with that same exception and has drawn and saved
    nothing. *)
Theorem unreadable_sheet_aborts_run (w : world) (e : exn) :
  (read_excel w (path_join (current_dir w) Graph1.DATA_FILE) = Raise e ->
   outcome (Graph1.main w) = Raise e /\
   Forall (fun ev => is_drawing ev = false) (trace (Graph1.main w))) /\
  (read_excel w (path_join (current_dir w) Graph2.DATA_FILE) = Raise e ->
   outcome (Graph2.main w) = Raise e /\
   Forall (fun ev => is_drawing ev = false) (trace (Graph2.main w))).
Proof.
  split; intros H.
  - rewrite (graph1_main_load_raises w e
               (load_read_excel_raises w _ _ _ _ e H)).
    split; [reflexivity | apply font_setup_draws_nothing].
  - rewrite (graph2_main_load_raises w e
               (load_read_excel_raises w _ _ _ _ e H)).
    split; [reflexivity | apply font_setup_draws_nothing].
Qed.

Lemma unreadable_sheet_aborts_run_witness :
  let w := mk_world None "/home/user" "graph"
             (fun _ => Raise (mk_exn FileNotFoundError "data1.xlsm"))
             Example.fit_returns (fun v => v) Example.opener_returns
             None (fun _ => None) in
  outcome (Graph1.main w) = Raise (mk_exn FileNotFoundError "data1.xlsm") /\
  Forall (fun ev => is_drawing ev = false) (trace (Graph1.main w)).
Proof.
  cbv zeta.
  apply (proj1 (unreadable_sheet_aborts_run
                  (mk_world None "/home/user" "graph"
                     (fun _ => Raise (mk_exn FileNotFoundError "data1.xlsm"))
                     Example.fit_returns (fun v => v) Example.opener_returns
                     None (fun _ => None))
                  (mk_exn FileNotFoundError "data1.xlsm"))).
  reflexivity.
Defined.

Lemma graph1_fit_block_escapes (w : world) (x y1 y2 : series) (e : exn) :
  x <> [] ->
  Graph1.fit_raises w x y1 y2 e -> is_Exception e = false ->
  outcome (Graph1.fit_block w x y1 y2) = Raise e.
Proof.
  intros Hx Hfit He. unfold Graph1.fit_block; cbn.
  destruct Hfit as [H1|[H1 H2]].
  - rewrite H1; cbn. now rewrite He.
  - destruct (np_polyfit w x y1 2); [|discriminate]; cbn.
    destruct x; [congruence|]; cbn. rewrite H2; cbn. now rewrite He.
Qed.

Lemma graph2_fit_block_escapes (w : world) (x y1 y2 : series) (e : exn) :
  Graph2.fit_raises w x y1 y2 e -> is_Exception e = false ->
  outcome (Graph2.fit_block w x y1 y2) = Raise e.
Proof.
  unfold Graph2.fit_raises, Graph2.loglog_polyfit. intros Hfit He.
  unfold Graph2.fit_block, Graph2.fit_one, Graph2.log10; cbn.
  destruct Hfit as [H1|[(s1 & i1 & H1) H2]].
  - rewrite H1; cbn. now rewrite He.
  - rewrite H1; cbn. rewrite H2; cbn. now rewrite He.
Qed.

(** X10: the fit block catches [Exception] only.  When a fit computation
    on the cleaned columns of a sheet with a data row raises an exception
    outside [Exception] (an interrupt), the run of either pipeline ends
    with that exception and never reaches [savefig]. *)
Theorem fit_interrupt_escapes_and_nothing_is_saved :
  (forall w d x y1 y2 e,
      outcome (load w Graph1.DATA_FILE Graph1.X_COL Graph1.Y1_COL
                    Graph1.Y2_COL) = Ok d ->
      Graph1.clean d = (x, y1, y2) ->
      x <> [] ->
      Graph1.fit_raises w x y1 y2 e ->
      is_Exception e = false ->
      outcome (Graph1.main w) = Raise e /\
      forall p, ~ In (Savefig p) (trace (Graph1.main w))) /\
  (forall w d x y1 y2 e,
      outcome (load w Graph2.DATA_FILE Graph2.X_COL Graph2.Y1_COL
                    Graph2.Y2_COL) = Ok d ->
      fst (fst d) <> [] ->
      Graph2.clean d = (x, y1, y2) ->
      Graph2.fit_raises w x y1 y2 e ->
      is_Exception e = false ->
      outcome (Graph2.main w) = Raise e /\
      forall p, ~ In (Savefig p) (trace (Graph2.main w))).
Proof.
  split.
  - intros w d x y1 y2 e Hl Hc Hx Hfit He.
    pose proof (graph1_fit_block_escapes w x y1 y2 e Hx Hfit He) as Hf.
    pose proof (graph1_clean_nonempty d x y1 y2 Hc Hx) as Hd.
    rewrite (graph1_main_loaded w d x y1 y2 Hl Hd Hc), graph1_render_eq.
    rewrite (graph1_theory_block_nonempty x Hx). cbn [outcome trace fst snd].
    rewrite Hf. cbn [outcome trace fst snd]. split; [reflexivity|].
    intros p H. rewrite in_app_iff in H. cbn [In app] in H.
    destruct H as [H|[H|[H|[H|[H|[H|H]]]]]]; try discriminate.
    + now apply font_setup_never_saves in H.
    + revert H. apply never_saves_not_In, graph1_fit_block_never_saves.
  - intros w d x y1 y2 e Hl Hd Hc Hfit He.
    pose proof (graph2_fit_block_escapes w x y1 y2 e Hfit He) as Hf.
    rewrite (graph2_main_loaded w d x y1 y2 Hl Hd Hc), graph2_render_eq.
    rewrite Hf. cbn [outcome trace fst snd]. split; [reflexivity|].
    intros p H. rewrite in_app_iff in H. cbn [In app] in H.
    destruct H as [H|[H|[H|[H|[H|[H|H]]]]]]; try discriminate.
    + now apply font_setup_never_saves in H.
    + revert H. apply never_saves_not_In, graph2_fit_block_never_saves.
Qed.

Lemma fit_interrupt_escapes_and_nothing_is_saved_witness :
  let w := Example.around Example.sheet1
             (fun _ _ _ => Raise (mk_exn KeyboardInterrupt "interrupted"))
             Example.opener_returns in
  outcome (Graph1.main w) = Raise (mk_exn KeyboardInterrupt "interrupted") /\
  forall p, ~ In (Savefig p) (trace (Graph1.main w)).
Proof.
  cbv zeta.
  apply (proj1 fit_interrupt_escapes_and_nothing_is_saved
           (Example.around Example.sheet1
              (fun _ _ _ => Raise (mk_exn KeyboardInterrupt "interrupted"))
              Example.opener_returns)
           ([0; 1; 2], [25; nan; 28], [25; 26; 29])%float
           [0; 2]%float [25; 28]%float [25; 29]%float);
    [reflexivity | reflexivity | discriminate | left; reflexivity
    | reflexivity].
Defined.

End Aborts.

Section FontFallback.
Import Py Script Series.
Local Open Scope string_scope.
Local Open Scope list_scope.

Lemma font_setup_succeeds (w : world) :
  font_setup (Env.with_addfont w None)
  = ([RcFontFamily "Hiragino Sans"], Ok tt).
Proof. reflexivity. Qed.

Lemma font_setup_falls_back (w : world) (e : exn) :
  font_setup (Env.with_addfont w (Some e))
  = ([Print "日本語フォントの設定に失敗しました。デフォルトフォントを使用します。";
      RcFontFamily "sans-serif"], Ok tt).
Proof. reflexivity. Qed.

(** X11: a failure of the font set-up, whatever the exception, costs the
    font and nothing else: compared with the run in which [addfont]
    succeeds, the run prints one notice and selects [sans-serif] instead of
    [Hiragino Sans], and then has the same events and the same outcome, in
    both pipelines. *)
Theorem font_failure_only_changes_font (w : world) (e : exn) :
  (exists rest r,
      Graph1.main (Env.with_addfont w None)
      = (RcFontFamily "Hiragino Sans" :: rest, r) /\
      Graph1.main (Env.with_addfont w (Some e))
      = (Print "日本語フォントの設定に失敗しました。デフォルトフォントを使用します。"
           :: RcFontFamily "sans-serif" :: rest, r)) /\
  (exists rest r,
      Graph2.main (Env.with_addfont w None)
      = (RcFontFamily "Hiragino Sans" :: rest, r) /\
      Graph2.main (Env.with_addfont w (Some e))
      = (Print "日本語フォントの設定に失敗しました。デフォルトフォントを使用します。"
           :: RcFontFamily "sans-serif" :: rest, r)).
Proof.
  split.
  - unfold Graph1.main.
    rewrite font_setup_succeeds, font_setup_falls_back.
    set (body := bind (load (Env.with_addfont w None) _ _ _ _) _).
    exists (trace body), (outcome body).
    split; [now destruct body|].
    change (bind (load (Env.with_addfont w (Some e)) Graph1.DATA_FILE
                       Graph1.X_COL Graph1.Y1_COL Graph1.Y2_COL) _)
      with body.
    now destruct body.
  - unfold Graph2.main.
    rewrite font_setup_succeeds, font_setup_falls_back.
    set (body := bind (load (Env.with_addfont w None) _ _ _ _) _).
    exists (trace body), (outcome body).
    split; [now destruct body|].
    change (bind (load (Env.with_addfont w (Some e)) Graph2.DATA_FILE
                       Graph2.X_COL Graph2.Y1_COL Graph2.Y2_COL) _)
      with body.
    now destruct body.
Qed.

End FontFallback.

Section WholeRun.
Import Py Script Series Trace.
Local Open Scope string_scope.
Local Open Scope list_scope.

Lemma graph1_fit_block_both_return (w : world) (x y1 y2 : series) :
  x <> [] ->
  raised (np_polyfit w x y1 2) = false ->
  raised (np_polyfit w x y2 2) = false ->
  Graph1.fit_block w x y1 y2 = ([Plot data1 fit; Plot data2 fit], Ok tt).
Proof.
  intros Hx H1 H2. unfold Graph1.fit_block; cbn.
  destruct (np_polyfit w x y1 2); [|discriminate]; cbn.
  destruct x; [congruence|]; cbn.
  destruct (np_polyfit w _ y2 2); [|discriminate]. reflexivity.
Qed.

Lemma graph2_fit_block_both_return (w : world) (x y1 y2 : series)
      (s1 i1 s2 i2 : float) :
  Graph2.loglog_polyfit w x y1 = Ok [s1; i1] ->
  Graph2.loglog_polyfit w x y2 = Ok [s2; i2] ->
  Graph2.fit_block w x y1 y2 =
    ([Log10 x; Log10 y1; Log10 x; Plot data1 fit;
      Log10 x; Log10 y2; Log10 x; Plot data2 fit], Ok tt).
Proof.
  unfold Graph2.loglog_polyfit. intros H1 H2.
  unfold Graph2.fit_block, Graph2.fit_one, Graph2.log10; cbn.
  rewrite H1; cbn. rewrite H2; cbn. reflexivity.
Qed.

(** X12: the trace of a run in which nothing fails: the sheet has a
    data row, both fits return, the axis statements and [savefig] return
    and [open] starts.  After the font
    events, pipeline 1 draws the two scatter series, the two theory
    curves and the two fit curves in this order, sets linear axes with
    the grid, saves the figure and runs [open] on it; pipeline 2 does the
    same with three [np.log10] calls around each fit, logarithmic axes
    and no grid. *)
Theorem successful_run_trace :
  (forall w d x y1 y2,
      outcome (load w Graph1.DATA_FILE Graph1.X_COL Graph1.Y1_COL
                    Graph1.Y2_COL) = Ok d ->
      Graph1.clean d = (x, y1, y2) ->
      x <> [] ->
      raised (np_polyfit w x y1 2) = false ->
      raised (np_polyfit w x y2 2) = false ->
      axis_block w = None ->
      savefig w (output_path w) = None ->
      raised (subprocess_run w ["open"; output_path w] false) = false ->
      Graph1.main w =
        (trace (font_setup w) ++
           [Subplots; Scatter data1 x y1; Scatter data2 x y2;
            Plot data1 theory; Plot data2 theory;
            Plot data1 fit; Plot data2 fit;
            Axes false false true; Savefig (output_path w);
            Subprocess ["open"; output_path w] false],
         Ok tt)) /\
  (forall w d x y1 y2 s1 i1 s2 i2,
      outcome (load w Graph2.DATA_FILE Graph2.X_COL Graph2.Y1_COL
                    Graph2.Y2_COL) = Ok d ->
      fst (fst d) <> [] ->
      Graph2.clean d = (x, y1, y2) ->
      Graph2.loglog_polyfit w x y1 = Ok [s1; i1] ->
      Graph2.loglog_polyfit w x y2 = Ok [s2; i2] ->
      axis_block w = None ->
      savefig w (output_path w) = None ->
      raised (subprocess_run w ["open"; output_path w] false) = false ->
      Graph2.main w =
        (trace (font_setup w) ++
           [Subplots; Scatter data1 x y1; Scatter data2 x y2;
            Plot data1 theory; Plot data2 theory;
            Log10 x; Log10 y1; Log10 x; Plot data1 fit;
            Log10 x; Log10 y2; Log10 x; Plot data2 fit;
            Axes true true false; Savefig (output_path w);
            Subprocess ["open"; output_path w] false],
         Ok tt)).
Proof.
  split.
  - intros w d x y1 y2 Hl Hc Hx H1 H2 Ha Hs Ho.
    pose proof (graph1_clean_nonempty d x y1 y2 Hc Hx) as Hd.
    rewrite (graph1_main_loaded w d x y1 y2 Hl Hd Hc), graph1_render_eq.
    rewrite (graph1_theory_block_nonempty x Hx).
    rewrite (graph1_fit_block_both_return w x y1 y2 Hx H1 H2).
    cbn [outcome trace fst snd].
    rewrite (finish_returns w _ _ _ Ha Hs), open_file_trace, Ho.
    reflexivity.
  - intros w d x y1 y2 s1 i1 s2 i2 Hl Hd Hc H1 H2 Ha Hs Ho.
    rewrite (graph2_main_loaded w d x y1 y2 Hl Hd Hc), graph2_render_eq.
    rewrite (graph2_fit_block_both_return w x y1 y2 s1 i1 s2 i2 H1 H2).
    cbn [outcome trace fst snd].
    rewrite (finish_returns w _ _ _ Ha Hs), open_file_trace, Ho.
    reflexivity.
Qed.

Lemma successful_run_trace_witness :
  Graph1.main (Example.around Example.sheet1 Example.fit_returns
                 Example.opener_returns) =
    ([RcFontFamily "Hiragino Sans";
      Subplots; Scatter data1 [0; 2]%float [25; 28]%float;
      Scatter data2 [0; 2]%float [25; 29]%float;
      Plot data1 theory; Plot data2 theory;
      Plot data1 fit; Plot data2 fit;
      Axes false false true; Savefig "/home/user/graph.png";
      Subprocess ["open"; "/home/user/graph.png"] false],
     Ok tt).
Proof.
  apply (proj1 successful_run_trace
           (Example.around Example.sheet1 Example.fit_returns
              Example.opener_returns)
           ([0; 1; 2], [25; nan; 28], [25; 26; 29])%float
           [0; 2]%float [25; 28]%float [25; 29]%float);
    first [reflexivity | discriminate].
Defined.

End WholeRun.

Section SaveOrder.
Import Py Script Series Trace.
Local Open Scope string_scope.
Local Open Scope list_scope.

(** X13: in every run of either pipeline the figure is saved at most
    once, under the output path; whatever precedes [savefig] in the trace
    neither saves nor starts an opener, and whatever follows it draws
    nothing and starts openers on the saved file only. *)
Theorem savefig_once_then_openers_only :
  (forall w pre p post,
      trace (Graph1.main w) = pre ++ Savefig p :: post ->
      p = output_path w /\ Forall before_save pre
      /\ Forall (after_save (output_path w)) post) /\
  (forall w pre p post,
      trace (Graph2.main w) = pre ++ Savefig p :: post ->
      p = output_path w /\ Forall before_save pre
      /\ Forall (after_save (output_path w)) post).
Proof.
  assert (Hu : forall (w : world) (m : M unit) pre p post,
             ends_at_save (output_path w)
                          (trace (open_file w (output_path w))) m ->
             trace m = pre ++ Savefig p :: post ->
             p = output_path w /\ Forall before_save pre
             /\ Forall (after_save (output_path w)) post).
  { intros w m pre p post (A & HA & [[Ht _]|[Ht _]]) Heq;
      rewrite Ht in Heq.
    - exfalso. revert Heq.
      now apply no_savefig_no_split, before_save_not_savefig.
    - apply split_at_savefig in Heq as (-> & -> & ->).
      + repeat split; [assumption | apply open_file_after_save].
      + now apply before_save_not_savefig.
      + apply (after_save_not_savefig (output_path w)),
          open_file_after_save. }
  split; intros w pre p post Heq.
  - exact (Hu w _ pre p post (graph1_main_ends_at_save w) Heq).
  - exact (Hu w _ pre p post (graph2_main_ends_at_save w) Heq).
Qed.

Lemma savefig_once_then_openers_only_witness :
  Forall (after_save "/home/user/graph.png")
         [Subprocess ["open"; "/home/user/graph.png"] false;
          Subprocess ["start"; "/home/user/graph.png"] true;
          Subprocess ["xdg-open"; "/home/user/graph.png"] false;
          Print "グラフを保存しました: /home/user/graph.png";
          Print "ファイルを手動で開いてください。"].
Proof.
  apply (proj1 savefig_once_then_openers_only
           (Example.around Example.sheet1 Example.fit_returns
              Example.no_opener)
           [RcFontFamily "Hiragino Sans";
            Subplots; Scatter data1 [0; 2]%float [25; 28]%float;
            Scatter data2 [0; 2]%float [25; 29]%float;
            Plot data1 theory; Plot data2 theory;
            Plot data1 fit; Plot data2 fit; Axes false false true]
           "/home/user/graph.png").
  reflexivity.
Defined.

End SaveOrder.

(** * The built-in [max] on float columns *)

Section Maximum.
Import Py Series.

Lemma SFleb_total (a b : spec_float) :
  a <> S754_nan -> b <> S754_nan ->
  SFltb a b = false -> SFleb b a = true.
Proof.
  unfold SFltb, SFleb.
  destruct a as [sa|sa| |sa ma ea], b as [sb|sb| |sb mb eb];
    try congruence; intros _ _;
    try (destruct sa, sb; cbn; congruence).
  all: try (destruct sa; cbn; congruence).
  all: try (destruct sb; cbn; congruence).
  cbn. change (Pos.compare_cont Eq ma mb) with (Pos.compare ma mb).
  change (Pos.compare_cont Eq mb ma) with (Pos.compare mb ma).
  rewrite (Z.compare_antisym ea eb), (Pos.compare_antisym ma mb).
  destruct sa, sb; cbn; try congruence;
    destruct (ea ?= eb)%Z; cbn; try congruence;
    destruct (ma ?= mb)%positive; cbn; congruence.
Qed.

Lemma SFleb_trans (a b c : spec_float) :
  SFleb a b = true -> SFleb b c = true -> SFleb a c = true.
Proof.
  unfold SFleb.
  destruct a as [sa|sa| |sa ma ea], b as [sb|sb| |sb mb eb],
    c as [sc|sc| |sc mc ec]; cbn; try discriminate; try reflexivity.
  all: try (destruct sa; cbn; try discriminate; try reflexivity).
  all: try (destruct sb; cbn; try discriminate; try reflexivity).
  all: try (destruct sc; cbn; try discriminate; try reflexivity).
  all: change (Pos.compare_cont Eq) with Pos.compare.
  all: destruct (Z.compare_spec ea eb), (Z.compare_spec eb ec),
         (Z.compare_spec ea ec);
    cbn; try discriminate; try reflexivity; try lia.
  all: subst.
  all: destruct (Pos.compare_spec ma mb), (Pos.compare_spec mb mc),
         (Pos.compare_spec ma mc);
    cbn; try discriminate; try reflexivity; try lia.
Qed.

Lemma SFleb_refl (a : spec_float) : a <> S754_nan -> SFleb a a = true.
Proof.
  unfold SFleb.
  destruct a as [s|s| |s m e]; try congruence; intros _; cbn.
  - reflexivity.
  - now destruct s.
  - rewrite Z.compare_refl, Pos.compare_cont_refl. now destruct s.
Qed.

Lemma not_nan_spec (v : float) :
  Float64.isnan v = false -> Prim2SF v <> S754_nan.
Proof.
  unfold Float64.isnan, PrimFloat.is_nan.
  rewrite FloatAxioms.eqb_spec. intros H E. rewrite E in H. discriminate.
Qed.

Lemma leb_refl (v : float) :
  Float64.isnan v = false -> PrimFloat.leb v v = true.
Proof. intros H. rewrite leb_spec. now apply SFleb_refl, not_nan_spec. Qed.

Lemma leb_of_not_ltb (a b : float) :
  Float64.isnan a = false -> Float64.isnan b = false ->
  PrimFloat.ltb a b = false -> PrimFloat.leb b a = true.
Proof.
  intros Ha Hb. rewrite ltb_spec, leb_spec.
  apply SFleb_total; now apply not_nan_spec.
Qed.

Lemma leb_of_ltb (a b : float) :
  PrimFloat.ltb a b = true -> PrimFloat.leb a b = true.
Proof.
  rewrite ltb_spec, leb_spec. unfold SFltb, SFleb.
  now destruct (SFcompare (Prim2SF a) (Prim2SF b)) as [[]|].
Qed.

Lemma leb_trans (a b c : float) :
  PrimFloat.leb a b = true -> PrimFloat.leb b c = true ->
  PrimFloat.leb a c = true.
Proof. rewrite !leb_spec. apply SFleb_trans. Qed.

(** The running maximum of the loop in [max]. *)
Lemma running_max (rest : list float) (acc : float) :
  Float64.isnan acc = false -> no_nan rest ->
  let m := fold_left
             (fun acc item => if PrimFloat.ltb acc item then item else acc)
             rest acc in
  Float64.isnan m = false /\ PrimFloat.leb acc m = true
  /\ Forall (fun v => PrimFloat.leb v m = true) rest.
Proof.
  revert acc. induction rest as [|u rest IH]; intros acc Hacc Hrest; cbn.
  - repeat split; [assumption | now apply leb_refl | constructor].
  - inversion Hrest as [|? ? Hu Hrest']; subst.
    destruct (PrimFloat.ltb acc u) eqn:E.
    + destruct (IH u Hu Hrest') as (Hm & Hle & Hall).
      repeat split; try assumption.
      * apply (leb_trans acc u); [apply leb_of_ltb, E | exact Hle].
      * constructor; assumption.
    + destruct (IH acc Hacc Hrest') as (Hm & Hle & Hall).
      repeat split; try assumption.
      constructor; [|assumption].
      apply (leb_trans u acc);
        [apply leb_of_not_ltb; assumption | exact Hle].
Qed.

Lemma running_max_In (rest : list float) (acc : float) :
  In (fold_left
        (fun acc item => if PrimFloat.ltb acc item then item else acc)
        rest acc) (acc :: rest).
Proof.
  revert acc. induction rest as [|u rest IH]; intros acc; cbn.
  - now left.
  - destruct (PrimFloat.ltb acc u).
    + right. apply IH.
    + destruct (IH acc) as [H|H]; [now left | right; now right].
Qed.

Lemma py_max_bounds (xs : list float) (m : float) :
  no_nan xs -> py_max xs = Ok m ->
  Forall (fun v => PrimFloat.leb v m = true) xs.
Proof.
  destruct xs as [|v xs]; intros Hn; cbn; [discriminate|].
  intros H. injection H as <-.
  inversion Hn as [|? ? Hv Hxs]; subst.
  destruct (running_max xs v Hv Hxs) as (_ & Hle & Hall).
  now constructor.
Qed.

(** X14: [max] over a column raises (a [ValueError]) exactly on the empty
    column; otherwise it returns one of the column's values, and on a
    column without NaN that value is greater than or equal to every value
    of the column.  So the end of the curve range of pipeline 1,
    [max(x_data)] of the cleaned abscissae, is the largest of them. *)
Theorem py_max_is_greatest_element :
  (forall xs, raised (py_max xs) = true <-> xs = []) /\
  (forall xs m, py_max xs = Ok m -> In m xs) /\
  (forall xs m, no_nan xs -> py_max xs = Ok m ->
                Forall (fun v => PrimFloat.leb v m = true) xs) /\
  (forall df x0 y10 y20 x y1 y2 m,
      Script.getitem df Graph1.X_COL = Ok x0 ->
      Script.getitem df Graph1.Y1_COL = Ok y10 ->
      Script.getitem df Graph1.Y2_COL = Ok y20 ->
      Graph1.clean (x0, y10, y20) = (x, y1, y2) ->
      py_max x = Ok m ->
      In m x /\ Forall (fun v => PrimFloat.leb v m = true) x).
Proof.
  assert (Hin : forall xs m, py_max xs = Ok m -> In m xs).
  { intros [|v xs] m; cbn; [discriminate|].
    intros H. injection H as <-. apply running_max_In. }
  split; [|split; [|split]].
  - intros [|v xs]; cbn; split; congruence.
  - exact Hin.
  - apply py_max_bounds.
  - intros df x0 y10 y20 x y1 y2 m Hx Hy1 Hy2 Hc Hm.
    destruct (graph1_clean_columns _ _ _ _ _ _ _ _ _ _ Hx Hy1 Hy2 Hc)
      as (_ & _ & _ & Hn & _).
    split; [now apply Hin | now apply py_max_bounds].
Qed.

Lemma py_max_is_greatest_element_witness :
  Forall (fun v => PrimFloat.leb v 2%float = true) [0; 2; 1]%float.
Proof.
  apply (proj1 (proj2 (proj2 py_max_is_greatest_element))
           [0; 2; 1]%float 2%float).
  - repeat constructor.
  - reflexivity.
Defined.

End Maximum.

(** * What reaches the scatter plot *)

Section Scattered.
Import Py Script Series.
Local Open Scope string_scope.
Local Open Scope list_scope.

Variable Q : series -> series -> Prop.

Let scattered_ok (ev : event) : Prop :=
  forall k x y, ev = Scatter k x y -> Q x y.

Lemma font_setup_scatters_nothing (w : world) :
  Forall scattered_ok (trace (font_setup w)).
Proof. unfold font_setup. trace_all; intros ? ? ? H; discriminate. Qed.

Lemma finish_scatters_nothing (w : world) (a b c : bool) :
  Forall scattered_ok (trace (finish w a b c)).
Proof.
  unfold finish, open_file, run. trace_all; intros ? ? ? H; discriminate.
Qed.

Lemma graph1_render_scatters (w : world) (x y1 y2 : series) :
  Q x y1 -> Q x y2 ->
  Forall scattered_ok (trace (Graph1.render w x y1 y2)).
Proof.
  intros H1 H2. unfold Graph1.render.
  apply Forall_trace_bind; [trace_all; intros ? ? ? H; discriminate|].
  intros _. apply Forall_trace_bind;
    [apply Forall_trace_emit; intros ? ? ? H; now injection H as _ <- <-|].
  intros _. apply Forall_trace_bind;
    [apply Forall_trace_emit; intros ? ? ? H; now injection H as _ <- <-|].
  intros _. apply Forall_trace_bind.
  { unfold Graph1.theory_block. cbv delta [Graph1.PLOT_THEORY] iota.
    trace_all; intros ? ? ? H; discriminate. }
  intros _. apply Forall_trace_bind.
  { unfold Graph1.fit_block. cbv delta [Graph1.PLOT_FIT] iota.
    trace_all; intros ? ? ? H; discriminate. }
  intros _. apply finish_scatters_nothing.
Qed.

Lemma graph2_render_scatters (w : world) (x y1 y2 : series) :
  Q x y1 -> Q x y2 ->
  Forall scattered_ok (trace (Graph2.render w x y1 y2)).
Proof.
  intros H1 H2. unfold Graph2.render.
  apply Forall_trace_bind; [trace_all; intros ? ? ? H; discriminate|].
  intros _. apply Forall_trace_bind;
    [apply Forall_trace_emit; intros ? ? ? H; now injection H as _ <- <-|].
  intros _. apply Forall_trace_bind;
    [apply Forall_trace_emit; intros ? ? ? H; now injection H as _ <- <-|].
  intros _. apply Forall_trace_bind.
  { unfold Graph2.theory_block. cbv delta [Graph2.PLOT_THEORY] iota.
    trace_all; intros ? ? ? H; discriminate. }
  intros _. apply Forall_trace_bind.
  { unfold Graph2.fit_block, Graph2.fit_one, Graph2.log10.
    cbv delta [Graph2.PLOT_FIT] iota.
    trace_all; intros ? ? ? H; discriminate. }
  intros _. apply finish_scatters_nothing.
Qed.

End Scattered.

Section ScatteredClean.
Import Py Script Series.
Local Open Scope list_scope.

(** X15: whatever a run hands to [ax.scatter] is clean: in every run of
    pipeline 1 the two columns of a scatter call have equal length and
    hold no NaN; in pipeline 2 they moreover hold strictly positive
    values only, as the logarithmic axes need. *)
Theorem scattered_columns_are_clean :
  (forall w k x y,
      In (Scatter k x y) (trace (Graph1.main w)) ->
      List.length x = List.length y /\ no_nan x /\ no_nan y) /\
  (forall w k x y,
      In (Scatter k x y) (trace (Graph2.main w)) ->
      List.length x = List.length y /\ all_positive x /\ all_positive y).
Proof.
  split; intros w k x y Hin.
  - destruct (graph1_run_cases w)
      as [(e & Hm)|(d & cx & cy1 & cy2 & Hl & _ & Hc & Hm)];
      rewrite Hm in Hin; cbn [trace fst] in Hin.
    + pose proof (font_setup_scatters_nothing (fun _ _ => False) w) as Hf.
      rewrite Forall_forall in Hf. destruct (Hf _ Hin k x y eq_refl).
    + destruct (load_Ok_inv w _ _ _ _ d Hl)
        as (df & x0 & y10 & y20 & _ & Hx & Hy1 & Hy2 & ->).
      destruct (graph1_clean_columns _ _ _ _ _ _ _ _ _ _ Hx Hy1 Hy2 Hc)
        as (_ & _ & [L1 L2] & Nx & Ny1 & Ny2).
      apply in_app_or in Hin as [Hin|Hin].
      * pose proof (font_setup_scatters_nothing (fun _ _ => False) w) as Hf.
        rewrite Forall_forall in Hf. destruct (Hf _ Hin k x y eq_refl).
      * pose proof (graph1_render_scatters
                      (fun a b => List.length a = List.length b
                                  /\ no_nan a /\ no_nan b)
                      w cx cy1 cy2) as Hr.
        rewrite Forall_forall in Hr.
        apply (Hr ltac:(auto) ltac:(split; [congruence | auto])
                  _ Hin k x y eq_refl).
  - destruct (graph2_run_cases w)
      as [(e & Hm)|(d & cx & cy1 & cy2 & Hl & _ & Hc & Hm)];
      rewrite Hm in Hin; cbn [trace fst] in Hin.
    + pose proof (font_setup_scatters_nothing (fun _ _ => False) w) as Hf.
      rewrite Forall_forall in Hf. destruct (Hf _ Hin k x y eq_refl).
    + destruct (load_Ok_inv w _ _ _ _ d Hl)
        as (df & x0 & y10 & y20 & _ & Hx & Hy1 & Hy2 & ->).
      destruct (graph2_clean_columns _ _ _ _ _ _ _ _ _ _ Hx Hy1 Hy2 Hc)
        as (_ & _ & [L1 L2] & Nx & Ny1 & Ny2).
      apply in_app_or in Hin as [Hin|Hin].
      * pose proof (font_setup_scatters_nothing (fun _ _ => False) w) as Hf.
        rewrite Forall_forall in Hf. destruct (Hf _ Hin k x y eq_refl).
      * pose proof (graph2_render_scatters
                      (fun a b => List.length a = List.length b
                                  /\ all_positive a /\ all_positive b)
                      w cx cy1 cy2) as Hr.
        rewrite Forall_forall in Hr.
        apply (Hr ltac:(auto) ltac:(split; [congruence | auto])
                  _ Hin k x y eq_refl).
Qed.

Lemma scattered_columns_are_clean_witness :
  List.length [10; 1000]%float = List.length [0.5; 1]%float /\
  all_positive [10; 1000]%float /\ all_positive [0.5; 1]%float.
Proof.
  apply (proj2 scattered_columns_are_clean
           (Example.around Example.sheet2 Example.fit_returns
              Example.opener_returns) data2).
  vm_compute. tauto.
Defined.

End ScatteredClean.
